(** * llm_openrouter: the OpenRouter client of the LLM comparison tool

    A shallow embedding of [src/llm_openrouter.py]: the data classes, the
    credential lookup, the three gateway calls and the two thread-pool
    fan-outs, followed by the properties of the specification that can be
    stated about them.

    Conventions of the embedding.
    - A Python value that the code stores without looking at its type (every
      field read out of a JSON payload) is a [pyval].
    - A function that can raise returns an [outcome]; one that also reads or
      changes the process environment or talks to the gateway is a
      computation [M A] over a [world].
    - [time.time()] is not modelled: the duration of a round trip is part of
      what the gateway oracle answers.  [print] is not modelled either: it
      changes neither a result nor a request.
    - The tasks of a thread pool run in the order of submission; the order
      in which their futures complete is a parameter of the fan-out. *)

From Stdlib Require Import ZArith List Lia Permutation Ascii.
From Stdlib Require Import Floats.PrimFloat.
From stdpp Require Import base option list strings gmap pretty.

Local Open Scope Z_scope.
Local Open Scope string_scope.

(** ** Python values *)

#[local] Set Warnings "-register-all".

Inductive pyval :=
| PNone
| PBool (b : bool)
| PInt (z : Z)
| PFloat (f : float)
| PStr (s : string)
| PList (l : list pyval)
| PDict (d : list (string * pyval)).

(** A parsed JSON object is a dict with string keys; it is kept as an
    association list in insertion order, read at the first binding of a key. *)
Fixpoint assoc {A} (k : string) (d : list (string * A)) : option A :=
  match d with
  | [] => None
  | (k', v) :: rest => if String.eqb k k' then Some v else assoc k rest
  end.

(** The text of an f-string: [str()] of a [str] is the string itself, any
    other formatted value is kept as the value. *)
Inductive fpart :=
| Lit (s : string)
| Fmt (v : pyval).

Definition format_value (v : pyval) : fpart :=
  match v with
  | PStr s => Lit s
  | _ => Fmt v
  end.

(** ** Requests, responses, exceptions *)

Inductive http_method := GET | POST.

Record request := mk_request {
  method : http_method;
  url : list fpart;
  headers : list (string * string);
  json : option pyval;
  timeout : Z
}.

(** What comes back from one round trip.  [body] is the result of
    [http_response.json()]: [None] when the body is not JSON. *)
Record http_response := mk_http_response {
  status_code : Z;
  reason : string;
  body : option pyval;
  elapsed : float
}.

(** The subclasses of [requests.exceptions.RequestException] that
    [requests.get] and [requests.post] raise themselves: the failures of
    the transport, and the two refusals that precede it, of a payload that
    cannot be encoded as JSON and of a header that is not valid. *)
Inductive transport_failure :=
| ConnectionError
| ConnectTimeout
| ReadTimeout
| TooManyRedirects
| InvalidJSONError
| InvalidHeader.

Inductive exn :=
| EnvironmentError (msg : string)
| TransportFailure (t : transport_failure)
| HTTPError (text : option string) (response : http_response)
| JSONDecodeError
| KeyError (key : pyval)
| IndexError
| TypeError
| AttributeError.

(** [isinstance(e, requests.exceptions.RequestException)].  [HTTPError] and,
    since requests 2.27, [JSONDecodeError] are subclasses of it. *)
Definition is_RequestException (e : exn) : bool :=
  match e with
  | TransportFailure _ | HTTPError _ _ | JSONDecodeError => true
  | _ => false
  end.

Inductive outcome (A : Type) :=
| Returns (a : A)
| Raises (e : exn).
Arguments Returns {A} a.
Arguments Raises {A} e.

Definition is_Returns {A} (o : outcome A) : bool :=
  match o with Returns _ => true | Raises _ => false end.

Inductive http_result :=
| Responded (r : http_response)
| Failed (t : transport_failure).

(** ** Subscripting *)

(** [v[k]] for a string key. *)
Definition getitem (v : pyval) (k : string) : outcome pyval :=
  match v with
  | PDict d =>
      match assoc k d with
      | Some x => Returns x
      | None => Raises (KeyError (PStr k))
      end
  | _ => Raises TypeError
  end.

(** [v[0]]. *)
Definition getitem0 (v : pyval) : outcome pyval :=
  match v with
  | PList l =>
      match l with
      | x :: _ => Returns x
      | [] => Raises IndexError
      end
  | PStr s =>
      match s with
      | String c _ => Returns (PStr (String c EmptyString))
      | EmptyString => Raises IndexError
      end
  | PDict _ => Raises (KeyError (PInt 0))
  | _ => Raises TypeError
  end.

(** [v.get(k, default)]: only a dict has the method. *)
Definition py_get (v : pyval) (k : string) (default : pyval) : outcome pyval :=
  match v with
  | PDict d =>
      match assoc k d with
      | Some x => Returns x
      | None => Returns default
      end
  | _ => Raises AttributeError
  end.

(** ** The data classes *)

Module LLMResponse.
(** [id], [response], [finish_reason] and [raw_response] are assigned
    straight from the decoded payload, whatever their type is. *)
Record t := mk {
  id : pyval;
  model : string;
  prompt : string;
  user_input : string;
  response : pyval;
  finish_reason : pyval;
  raw_request : pyval;
  raw_response : pyval;
  elapsed_time : float
}.
End LLMResponse.

Module LLMCostAndStats.
Record t := mk {
  id : pyval;
  gpt_tokens_prompt : pyval;
  gpt_tokens_completion : pyval;
  native_tokens_prompt : pyval;
  native_tokens_completion : pyval;
  cost : pyval;
  raw_response : pyval;
  elapsed_time : float
}.
End LLMCostAndStats.

Module Model.
Record t := mk {
  id : string;
  name : string;
  pricing_prompt : float;
  pricing_completion : float;
  context_length : Z;
  max_completion_tokens : Z;
  tokenizer : string;
  instruct_type : string
}.

(** [__eq__] as [@dataclass(frozen=True)] generates it: the tuples of all
    the fields are compared, and [__hash__] hashes the same tuple.  Floats
    compare with IEEE equality; the shortcut that Python takes for one and
    the same object is left out, so a model with a NaN price differs from
    itself here, while Python takes one such object for one key.  On
    models without a NaN price ([self_equal] below) the two agree. *)
Definition eqb (a b : t) : bool :=
  String.eqb (id a) (id b)
  && String.eqb (name a) (name b)
  && PrimFloat.eqb (pricing_prompt a) (pricing_prompt b)
  && PrimFloat.eqb (pricing_completion a) (pricing_completion b)
  && Z.eqb (context_length a) (context_length b)
  && Z.eqb (max_completion_tokens a) (max_completion_tokens b)
  && String.eqb (tokenizer a) (tokenizer b)
  && String.eqb (instruct_type a) (instruct_type b).

(** [__str__]. *)
Definition str (m : t) : string := name m +:+ " (" +:+ id m +:+ ")".
End Model.

(** A [dict] whose keys compare with [eqb], in insertion order.  Assigning to
    a key that is present keeps the key and its place and replaces the value. *)
Fixpoint dict_set {K V} (eqb : K -> K -> bool) (k : K) (v : V)
    (d : list (K * V)) : list (K * V) :=
  match d with
  | [] => [(k, v)]
  | (k', v') :: rest =>
      if eqb k' k then (k', v) :: rest else (k', v') :: dict_set eqb k v rest
  end.

Definition dict_keys {K V} (d : list (K * V)) : list K := map fst d.

(** ** The world and computations over it *)

(** Everything outside the process that the module reads or writes: the
    process environment, the two [.env] files [dotenv] may load (their
    bindings, empty when the file is missing), the gateway, which answers a
    request knowing the requests sent before it, and the log of those. *)
Record world := mk_world {
  environ : gmap string string;
  config_is_dir : bool;
  config_dotenv : list (string * string);
  default_dotenv : list (string * string);
  gateway : list request -> request -> http_result;
  sent : list request
}.

Definition M (A : Type) : Type := world -> outcome A * world.

#[global] Instance M_ret : MRet M := fun A a w => (Returns a, w).

#[global] Instance M_bind : MBind M := fun A B f m w =>
  match m w with
  | (Returns a, w') => f a w'
  | (Raises e, w') => (Raises e, w')
  end.

Definition raise {A} (e : exn) : M A := fun w => (Raises e, w).

Definition lift {A} (o : outcome A) : M A := fun w => (o, w).

(** [try: body except <handles> as e: handler e]. *)
Definition try_except {A} (body : M A) (handles : exn -> bool)
    (handler : exn -> M A) : M A := fun w =>
  match body w with
  | (Raises e, w') => if handles e then handler e w' else (Raises e, w')
  | r => r
  end.

(** ** The credential *)

(** [os.environ] after the bindings of a file have been written to it, one
    after the other, each replacing what is there under its name.  The
    values are those the file gives on this load: [dotenv] expands a
    reference [${NAME}] in a value against the environment, so a file with
    such references may give other values on a later load, which the world
    does not follow (see [no_references]). *)
Definition load_into (env : gmap string string)
    (file : list (string * string)) : gmap string string :=
  foldl (fun env kv => <[kv.1 := kv.2]> env) env file.

(** [dotenv.load_dotenv(path, override=True)]. *)
Definition load_dotenv (file : list (string * string)) : M unit := fun w =>
  (Returns tt,
   mk_world (load_into (environ w) file)
            (config_is_dir w) (config_dotenv w) (default_dotenv w)
            (gateway w) (sent w)).

Definition getenv (k : string) : M (option string) := fun w =>
  (Returns (environ w !! k), w).

(** Truth value of what [os.getenv] returns: [None] and [""] are false. *)
Definition truthy (v : option string) : bool :=
  match v with
  | Some (String _ _) => true
  | _ => false
  end.

Definition _get_api_key : M string :=
  is_dir ← (fun w => (Returns (config_is_dir w), w));
  _ ← (if is_dir : bool
       then (fun w => load_dotenv (config_dotenv w) w)
       else (fun w => load_dotenv (default_dotenv w) w));
  api_key ← getenv "OPENAI_API_KEY";
  api_key ← (if truthy api_key then mret api_key
             else getenv "OPENROUTER_API_KEY");
  match api_key with
  | Some (String c k) => mret (String c k)
  | _ => raise (EnvironmentError
           "API key environment variable not set -- see README.md for instructions")
  end.

(** ** The gateway calls *)

Definition _OPENROUTER_API : string := "https://openrouter.ai/api/v1".
Definition _REFERER : string := "http://localhost:3000".

Definition newline : string := String (Ascii.ascii_of_nat 10) EmptyString.

(** One call of [requests]: the call is logged with its arguments, and the
    gateway stands for all that happens to it, an answer or an exception of
    [requests].  The log is that of the calls made; whether the bytes of a
    call leave the process is up to [requests], which refuses a payload it
    cannot encode (see [json_encodable]). *)
Definition send (req : request) : M http_response := fun w =>
  let w' := mk_world (environ w) (config_is_dir w) (config_dotenv w)
                     (default_dotenv w) (gateway w) (sent w ++ [req]) in
  match gateway w (sent w) req with
  | Responded r => (Returns r, w')
  | Failed t => (Raises (TransportFailure t), w')
  end.

(** [requests.get(url, headers=headers, timeout=timeout)]. *)
Definition requests_get (url : list fpart) (headers : list (string * string))
    (timeout : Z) : M http_response :=
  send (mk_request GET url headers None timeout).

(** [requests.post(url=url, json=payload, headers=headers, timeout=timeout)]. *)
Definition requests_post (url : list fpart) (payload : pyval)
    (headers : list (string * string)) (timeout : Z) : M http_response :=
  send (mk_request POST url headers (Some payload) timeout).

(** [http_response.raise_for_status()]: the message of the error is the
    library's. *)
Definition raise_for_status (r : http_response) : M unit :=
  if ((400 <=? status_code r) && (status_code r <? 600))%Z
  then raise (HTTPError None r)
  else mret tt.

(** [http_response.json()]. *)
Definition response_json (r : http_response) : outcome pyval :=
  match body r with
  | Some v => Returns v
  | None => Raises JSONDecodeError
  end.

(** Lines 125 to 128 of [available_models]: the request and the payload it is
    read from.  The loop that builds one [Model] per item of the payload
    does no further call. *)
Definition models_url : list fpart := [Lit _OPENROUTER_API; Lit "/models"].

Definition available_models : M pyval :=
  http_response ← requests_get models_url [] 360;
  _ ← raise_for_status http_response;
  data ← lift (response_json http_response);
  lift (getitem data "data").

(** *** The models of the catalog *)

(** A [Model] as the loop of [available_models] builds it: the two prices
    have gone through [float()], the other fields are whatever the payload
    holds, for the annotations of the data class are not checked. *)
Module CatalogModel.
Record t := mk {
  id : pyval;
  name : pyval;
  pricing_prompt : float;
  pricing_completion : float;
  context_length : pyval;
  max_completion_tokens : pyval;
  tokenizer : pyval;
  instruct_type : pyval
}.

(** The model as the rest of the program types it, when the payload holds
    strings and integers where the data class says so. *)
Definition typed (m : t) : option Model.t :=
  match id m, name m, context_length m, max_completion_tokens m,
        tokenizer m, instruct_type m with
  | PStr i, PStr n, PInt c, PInt x, PStr k, PStr s =>
      Some (Model.mk i n (pricing_prompt m) (pricing_completion m) c x k s)
  | _, _, _, _, _, _ => None
  end.
End CatalogModel.

(** What the loop can raise: the exceptions of subscripting, and those of
    [float()]. *)
Inductive loop_exn :=
| Exn (e : exn)
| ValueError
| OverflowError.

Inductive built (A : Type) :=
| Built (a : A)
| Threw (e : loop_exn).
Arguments Built {A} a.
Arguments Threw {A} e.

Definition of_outcome {A} (o : outcome A) : built A :=
  match o with
  | Returns a => Built a
  | Raises e => Threw (Exn e)
  end.

Definition built_bind {A B} (m : built A) (f : A -> built B) : built B :=
  match m with
  | Built a => f a
  | Threw e => Threw e
  end.

(** [for item in v]: the items that the loop visits. *)
Definition py_iter (v : pyval) : outcome (list pyval) :=
  match v with
  | PList l => Returns l
  | PDict d => Returns (map (fun kv => PStr kv.1) d)
  | PStr s =>
      Returns (map (fun c => PStr (String c EmptyString))
                   (String.list_ascii_of_string s))
  | _ => Raises TypeError
  end.

Section Catalog.

(** [float(s)] for a string and [float(n)] for an integer are Python's:
    [None] stands for the [ValueError] of a string that is no number and
    for the [OverflowError] of an integer too large. *)
Variable float_of_str : string -> option float.
Variable float_of_int : Z -> option float.

(** [float(v)]. *)
Definition py_float (v : pyval) : built float :=
  match v with
  | PFloat f => Built f
  | PBool b => Built (if b then 1%float else 0%float)
  | PInt z =>
      match float_of_int z with
      | Some f => Built f
      | None => Threw OverflowError
      end
  | PStr s =>
      match float_of_str s with
      | Some f => Built f
      | None => Threw ValueError
      end
  | _ => Threw (Exn TypeError)
  end.

(** The body of the loop.  A null [max_completion_tokens] is replaced by 0
    in the [top_provider] object before the model is built from it. *)
Definition model_of_item (item : pyval) : built CatalogModel.t :=
  built_bind (of_outcome (getitem item "pricing")) (fun pricing =>
  built_bind (of_outcome (getitem item "architecture")) (fun architecture =>
  built_bind (of_outcome (getitem item "top_provider")) (fun top_provider =>
  built_bind (of_outcome (getitem top_provider "max_completion_tokens"))
    (fun tokens =>
  let max_completion_tokens :=
    match tokens with
    | PNone => PInt 0
    | _ => tokens
    end in
  built_bind (of_outcome (getitem item "id")) (fun id =>
  built_bind (of_outcome (getitem item "name")) (fun name =>
  built_bind (of_outcome (getitem pricing "prompt")) (fun prompt =>
  built_bind (py_float prompt) (fun pricing_prompt =>
  built_bind (of_outcome (getitem pricing "completion")) (fun completion =>
  built_bind (py_float completion) (fun pricing_completion =>
  built_bind (of_outcome (getitem item "context_length"))
    (fun context_length =>
  built_bind (of_outcome (getitem architecture "tokenizer"))
    (fun tokenizer =>
  built_bind (of_outcome (getitem architecture "instruct_type"))
    (fun instruct_type =>
  Built (CatalogModel.mk id name pricing_prompt pricing_completion
           context_length max_completion_tokens tokenizer
           instruct_type)))))))))))))).

(** The loop: the models are appended one by one, and the first exception
    ends it. *)
Fixpoint models_of_items (items : list pyval)
    : built (list CatalogModel.t) :=
  match items with
  | [] => Built []
  | item :: rest =>
      built_bind (model_of_item item) (fun api_data =>
      built_bind (models_of_items rest) (fun api_data_list =>
      Built (api_data :: api_data_list)))
  end.

(** The whole of [available_models]. *)
Definition available_models_list (w : world)
    : built (list CatalogModel.t) * world :=
  match available_models w with
  | (Returns payload, w') =>
      (built_bind (of_outcome (py_iter payload)) models_of_items, w')
  | (Raises e, w') => (Threw (Exn e), w')
  end.

End Catalog.

(** What the [try] block of [cost_and_stats] leaves behind: the function has
    returned [None], or goes on with the response and the time it took. *)
Inductive lookup_step :=
| ReturnNone
| GoOn (http_response : http_response).

Definition stats_headers (api_key : string) : list (string * string) :=
  [("Authorization", "Bearer " +:+ api_key)].

Definition stats_url (response : LLMResponse.t) : list fpart :=
  [Lit _OPENROUTER_API; Lit "/generation?id=";
   format_value (LLMResponse.id response)].

Definition cost_and_stats (response : LLMResponse.t)
    : M (option LLMCostAndStats.t) :=
  api_key ← _get_api_key;
  let headers := stats_headers api_key in
  step ← try_except
    (http_response ← requests_get (stats_url response) headers 360;
     if (status_code http_response =? 404)%Z then mret ReturnNone
     else
       _ ← raise_for_status http_response;
       mret (GoOn http_response))
    is_RequestException
    (fun _ => mret ReturnNone);
  match step with
  | ReturnNone => mret None
  | GoOn http_response =>
      data ← lift (response_json http_response);
      payload ← lift (getitem data "data");
      tokens_prompt ← lift (getitem payload "tokens_prompt");
      tokens_completion ← lift (getitem payload "tokens_completion");
      native_tokens_prompt ← lift (getitem payload "native_tokens_prompt");
      native_tokens_completion ←
        lift (getitem payload "native_tokens_completion");
      usage ← lift (getitem payload "usage");
      mret (Some (LLMCostAndStats.mk
                    (LLMResponse.id response)
                    tokens_prompt tokens_completion
                    native_tokens_prompt native_tokens_completion
                    usage payload (elapsed http_response)))
  end.

Definition chat_payload (model prompt user_input : string)
    (temperature : float) (max_tokens : Z) : pyval :=
  PDict [("model", PStr model);
         ("messages",
          PList [PDict [("role", PStr "system"); ("content", PStr prompt)];
                 PDict [("role", PStr "user"); ("content", PStr user_input)]]);
         ("temperature", PFloat temperature);
         ("max_tokens", PInt max_tokens)].

Definition chat_headers (api_key : string) : list (string * string) :=
  [("Authorization", "Bearer " +:+ api_key); ("HTTP-Referer", _REFERER)].

Definition chat_url : list fpart :=
  [Lit _OPENROUTER_API; Lit "/chat/completions"].

(** The text of the [HTTPError] that [chat_completion] raises. *)
Definition exception_text (model : string) (r : http_response) : string :=
  model +:+ newline +:+ "HTTP error " +:+ pretty (status_code r)
        +:+ " - " +:+ reason r.

Definition chat_completion (model prompt user_input : string)
    (temperature : float) (max_tokens : Z) : M LLMResponse.t :=
  let payload := chat_payload model prompt user_input temperature max_tokens in
  api_key ← _get_api_key;
  let headers := chat_headers api_key in
  let url := chat_url in
  http_response ← requests_post url payload headers 120;
  if negb (status_code http_response =? 200)%Z then
    raise (HTTPError (Some (exception_text model http_response)) http_response)
  else
    data ← lift (response_json http_response);
    id ← lift (getitem data "id");
    choices ← lift (getitem data "choices");
    choice ← lift (getitem0 choices);
    message ← lift (getitem choice "message");
    content ← lift (getitem message "content");
    choices' ← lift (py_get data "choices" (PList [PDict []]));
    choice' ← lift (getitem0 choices');
    finish_reason ← lift (py_get choice' "finish_reason" (PStr "not available"));
    mret (LLMResponse.mk id model prompt user_input content finish_reason
                         payload data (elapsed http_response)).

(** ** The thread-pool fan-outs *)

(** [executor.submit(task)]: the future holds what the task returned or the
    exception it raised.  The tasks of one pool are run here in the order of
    submission; they share the environment, which every one of them reloads
    from the same file, and the gateway.  The threads of the real pool race:
    the order in which their calls reach the log is one of the orders the
    code allows, and no statement below rests on it. *)
Definition submit {A} (task : M A) : M (outcome A) := fun w =>
  let '(o, w') := task w in (Returns o, w').

Fixpoint submit_all {A} (tasks : list (M A)) : M (list (outcome A)) :=
  match tasks with
  | [] => mret []
  | task :: rest =>
      o ← submit task;
      os ← submit_all rest;
      mret (o :: os)
  end.

(** [concurrent.futures.as_completed(futures)]: the futures in the order in
    which they completed, [completed] listing their positions. *)
Definition as_completed {F} (completed : list nat) (futures : list F)
    : list F :=
  omap (fun i => futures !! i) completed.

(** The collection loop: [future.result()] returns the value of the task or
    raises its exception again. *)
Fixpoint collect {K V} (eqb : K -> K -> bool)
    (futures : list (outcome V * K)) (results : list (K * V))
    : outcome (list (K * V)) :=
  match futures with
  | [] => Returns results
  | (future, model) :: rest =>
      match future with
      | Returns r => collect eqb rest (dict_set eqb model r results)
      | Raises e => Raises e
      end
  end.

(** The tasks that [chat_completion_multiple] submits, one per model. *)
Definition chat_tasks (models : list Model.t) (prompt user_input : string)
    (temperature : float) (max_tokens : Z) : list (M LLMResponse.t) :=
  map (fun model =>
         chat_completion (Model.id model) prompt user_input
                         temperature max_tokens) models.

(** The [with] block waits for every submitted task before it is left, also
    when the loop raises. *)
Definition chat_completion_multiple (completed : list nat)
    (models : list Model.t) (prompt user_input : string)
    (temperature : float) (max_tokens : Z)
    : M (list (Model.t * LLMResponse.t)) :=
  outcomes ← submit_all
    (chat_tasks models prompt user_input temperature max_tokens);
  let futures := zip outcomes models in
  lift (collect Model.eqb (as_completed completed futures) []).

Definition cost_and_stats_multiple (completed : list nat)
    (llm_responses : list (Model.t * LLMResponse.t))
    : M (list (Model.t * option LLMCostAndStats.t)) :=
  outcomes ← submit_all
    (map (fun item => cost_and_stats item.2) llm_responses);
  let futures := zip outcomes (map fst llm_responses) in
  lift (collect Model.eqb (as_completed completed futures) []).

(** ** The caller of the stats fan-out, in [app.py] *)

(** The condition of the comprehension: an item whose stats are not
    [None] is kept. *)
Definition with_stats (item : Model.t * option LLMCostAndStats.t)
    : option (Model.t * LLMCostAndStats.t) :=
  match item.2 with
  | Some stats => Some (item.1, stats)
  | None => None
  end.

(** [get_cost_and_stats]: the stats of every response, the entries whose
    lookup returned [None] filtered out.  The spinner around the call only
    displays. *)
Definition get_cost_and_stats (completed : list nat)
    (response : list (Model.t * LLMResponse.t))
    : M (list (Model.t * LLMCostAndStats.t)) :=
  cost_and_stats ← cost_and_stats_multiple completed response;
  mret (omap with_stats cost_and_stats).

(** ** The export, in [app.py] *)

(** [k in d] and [d[k]] for a dict whose keys compare with [eqb]. *)
Fixpoint dict_lookup {K V} (eqb : K -> K -> bool) (k : K)
    (d : list (K * V)) : option V :=
  match d with
  | [] => None
  | (k', v) :: rest => if eqb k' k then Some v else dict_lookup eqb k rest
  end.

(** [LLMResponse.to_dict]: [asdict] lists the fields in the order of their
    declaration. *)
Definition response_to_dict (r : LLMResponse.t) : pyval :=
  PDict [("id", LLMResponse.id r);
         ("model", PStr (LLMResponse.model r));
         ("prompt", PStr (LLMResponse.prompt r));
         ("user_input", PStr (LLMResponse.user_input r));
         ("response", LLMResponse.response r);
         ("finish_reason", LLMResponse.finish_reason r);
         ("raw_request", LLMResponse.raw_request r);
         ("raw_response", LLMResponse.raw_response r);
         ("elapsed_time", PFloat (LLMResponse.elapsed_time r))].

(** [LLMCostAndStats.to_dict]: the two totals are properties, not fields,
    and are not listed. *)
Definition stats_to_dict (s : LLMCostAndStats.t) : pyval :=
  PDict [("id", LLMCostAndStats.id s);
         ("gpt_tokens_prompt", LLMCostAndStats.gpt_tokens_prompt s);
         ("gpt_tokens_completion", LLMCostAndStats.gpt_tokens_completion s);
         ("native_tokens_prompt", LLMCostAndStats.native_tokens_prompt s);
         ("native_tokens_completion",
          LLMCostAndStats.native_tokens_completion s);
         ("cost", LLMCostAndStats.cost s);
         ("raw_response", LLMCostAndStats.raw_response s);
         ("elapsed_time", PFloat (LLMCostAndStats.elapsed_time s))].

(** The record that the export holds for one model. *)
Definition export_record (model : Model.t) (response : LLMResponse.t)
    (cost_and_stats : list (Model.t * LLMCostAndStats.t)) : pyval :=
  PDict [("response", response_to_dict response);
         ("cost_and_stats",
          match dict_lookup Model.eqb model cost_and_stats with
          | Some stats => stats_to_dict stats
          | None => PNone
          end)].

(** The loop that fills [response_json] before it is dumped (lines 136 to
    141): one assignment per response, under the name of its model. *)
Definition export_records (response : list (Model.t * LLMResponse.t))
    (cost_and_stats : list (Model.t * LLMCostAndStats.t))
    : list (string * pyval) :=
  foldl (fun acc item =>
           dict_set String.eqb (Model.name item.1)
                    (export_record item.1 item.2 cost_and_stats) acc)
        [] response.

(** ** What the credential lookup computes *)

(** [os.environ] after [load_dotenv] has run on the file that
    [_get_api_key] chooses. *)
Definition loaded_environ (w : world) : gmap string string :=
  load_into (environ w)
            (if config_is_dir w then config_dotenv w else default_dotenv w).

Definition reload (w : world) : world :=
  mk_world (loaded_environ w) (config_is_dir w) (config_dotenv w)
           (default_dotenv w) (gateway w) (sent w).

(** What [_get_api_key] raises when it finds no key. *)
Definition no_key : exn :=
  EnvironmentError
    "API key environment variable not set -- see README.md for instructions".

(** The key found in an environment: a non-empty [OPENAI_API_KEY], or else a
    non-empty [OPENROUTER_API_KEY]. *)
Definition resolve_key (env : gmap string string) : option string :=
  match env !! "OPENAI_API_KEY" with
  | Some (String c k) => Some (String c k)
  | _ =>
      match env !! "OPENROUTER_API_KEY" with
      | Some (String c k) => Some (String c k)
      | _ => None
      end
  end.

(** The request that a call sends once the key is known. *)
Definition chat_request (api_key model prompt user_input : string)
    (temperature : float) (max_tokens : Z) : request :=
  mk_request POST chat_url (chat_headers api_key)
    (Some (chat_payload model prompt user_input temperature max_tokens)) 120.

Definition stats_request (api_key : string) (response : LLMResponse.t)
    : request :=
  mk_request GET (stats_url response) (stats_headers api_key) None 360.

Definition models_request : request :=
  mk_request GET models_url [] None 360.

(** The world once [req] has been sent. *)
Definition logged (req : request) (w : world) : world :=
  mk_world (environ w) (config_is_dir w) (config_dotenv w)
           (default_dotenv w) (gateway w) (sent w ++ [req]).

(** The value that a [.env] file gives a name: that of its last binding. *)
Definition last_binding (k : string) (file : list (string * string))
    : option string :=
  assoc k (rev file).

(** The [.env] file that [_get_api_key] loads. *)
Definition chosen_dotenv (w : world) : list (string * string) :=
  if config_is_dir w then config_dotenv w else default_dotenv w.

(** A model that equals itself: neither price is a NaN.  These are the
    models on which [Model.eqb] is the equality that Python keys a dict
    by. *)
Definition self_equal (m : Model.t) : Prop := Model.eqb m m = true.

(** [sys.get_int_max_str_digits()] is 0, for no limit, or at least 640. *)
Definition digits_limit_ok (limit : Z) : Prop :=
  (limit = 0 \/ 640 <= limit)%Z.

(** [json.dumps(v, allow_nan=False)] succeeds, so that [requests] sends [v]
    as the body of a call: no float is a NaN or an infinity, and no integer
    has more digits than [limit] allows. *)
Fixpoint json_encodable (limit : Z) (v : pyval) : bool :=
  match v with
  | PNone | PBool _ | PStr _ => true
  | PInt z => (limit =? 0)%Z || (Z.abs z <? 10 ^ limit)%Z
  | PFloat f => PrimFloat.is_finite f
  | PList l => forallb (json_encodable limit) l
  | PDict d => forallb (fun kv => json_encodable limit kv.2) d
  end.

(** A value of a [.env] file that refers to no variable: it has no ["${"]. *)
Fixpoint has_reference (v : string) : bool :=
  match v with
  | String "$" (String "{" _) => true
  | String _ rest => has_reference rest
  | EmptyString => false
  end.

(** A file whose values [dotenv] has nothing to expand in: every load of it
    gives the same bindings. *)
Definition no_references (file : list (string * string)) : Prop :=
  Forall (fun kv => has_reference kv.2 = false) file.

(** Keys of which none equals a later one: what the keys of a dict are. *)
Definition unequal_keys {K} (eqb : K -> K -> bool) (keys : list K) : Prop :=
  ForallOrdPairs (fun a b => eqb a b = false) keys.

(** ** What a pool computes *)

(** The outcomes of the tasks of a pool, in the order of submission, and
    the world they leave behind. *)
Fixpoint run_all {A} (tasks : list (M A)) (w : world)
    : list (outcome A) * world :=
  match tasks with
  | [] => ([], w)
  | task :: rest =>
      let '(o, w1) := task w in
      let '(os, w2) := run_all rest w1 in
      (o :: os, w2)
  end.

(** Two keys that a dict keeps apart, whichever is inserted first. *)
Definition apart {K} (eqb : K -> K -> bool) (a b : K) : Prop :=
  eqb a b = false /\ eqb b a = false.

(** Models that are pairwise distinct as dict keys. *)
Definition distinct_models (models : list Model.t) : Prop :=
  ForallOrdPairs (apart Model.eqb) models.

(** The tasks that [cost_and_stats_multiple] submits, one per response. *)
Definition stats_tasks (llm_responses : list (Model.t * LLMResponse.t))
    : list (M (option LLMCostAndStats.t)) :=
  map (fun item => cost_and_stats item.2) llm_responses.

(** The entry that a future adds to the mapping. *)
Definition entry_of {K V} (f : outcome V * K) : option (K * V) :=
  match f.1 with
  | Returns v => Some (f.2, v)
  | Raises _ => None
  end.


(** ** Worlds and values used in the examples *)

Module Examples.

(** A well-formed chat payload, as the gateway documents it, whose first
    choice carries no [finish_reason]. *)
Definition chat_body : pyval :=
  PDict [("id", PStr "gen-1");
         ("choices",
          PList [PDict [("message",
                         PDict [("role", PStr "assistant");
                                ("content", PStr "4")])]])].

Definition stats_body : pyval :=
  PDict [("data",
          PDict [("tokens_prompt", PInt 12);
                 ("tokens_completion", PInt 3);
                 ("native_tokens_prompt", PInt 14);
                 ("native_tokens_completion", PInt 4);
                 ("usage", PFloat 0.5%float)])].

Definition ok (v : pyval) : http_result :=
  Responded (mk_http_response 200 "OK" (Some v) 0.25%float).

Definition status (code : Z) (why : string) : http_result :=
  Responded (mk_http_response code why None 0.25%float).

Definition answered (code : Z) (why : string) (v : pyval) : http_result :=
  Responded (mk_http_response code why (Some v) 0.25%float).

(** The model named in the payload of a chat request. *)
Definition requested_model (req : request) : option string :=
  match json req with
  | Some (PDict (("model", PStr m) :: _)) => Some m
  | _ => None
  end.

(** A gateway that serves every chat request but those for [bad], which it
    answers with [failure], and serves stats and the catalog. *)
Definition gateway_failing (bad : string) (failure : http_result)
    (_ : list request) (req : request) : http_result :=
  match method req, requested_model req with
  | POST, Some m => if String.eqb m bad then failure else ok chat_body
  | POST, None => status 400 "Bad Request"
  | GET, _ => ok stats_body
  end.

(** A gateway that answers everything with [answer]. *)
Definition gateway_const (answer : http_result)
    (_ : list request) (_ : request) : http_result := answer.

(** A process whose key is in the environment and that finds no [.env]. *)
Definition world_with (gw : list request -> request -> http_result)
    : world :=
  mk_world (<["OPENROUTER_API_KEY" := "sk-or-1"]> ∅) false [] [] gw [].

(** A process whose [config/.env] holds a key that replaces the one of
    the environment. *)
Definition world_with_file (gw : list request -> request -> http_result)
    : world :=
  mk_world (<["OPENROUTER_API_KEY" := "sk-or-1"]> ∅) true
           [("OPENROUTER_API_KEY", "sk-or-2")] [] gw [].

(** The gateway has nothing under any id. *)
Definition world_404 : world :=
  world_with (gateway_const (status 404 "Not Found")).

(** The gateway serves every request. *)
Definition world_ok : world :=
  world_with (gateway_failing "" (status 500 "Internal Server Error")).

(** The gateway answers every request with 201 and a well-formed chat
    payload. *)
Definition world_201 : world :=
  world_with (gateway_const (answered 201 "Created" chat_body)).

(** The key of the environment has been rotated in [config/.env]. *)
Definition world_rotated : world :=
  world_with_file (gateway_failing "" (status 500 "Internal Server Error")).

(** The gateway fails the chat requests for model ["b"] with 500. *)
Definition world_b_fails : world :=
  world_with (gateway_failing "b" (status 500 "Internal Server Error")).

(** The transport times out on the chat requests for model ["b"]. *)
Definition world_b_times_out : world :=
  world_with (gateway_failing "b" (Failed ReadTimeout)).

Definition model (id name : string) (price : float) : Model.t :=
  Model.mk id name price price 4096 1024 "GPT" "none".

(** What a call returned, or nothing when it raised. *)
Definition returned {A} (o : outcome (list A)) : list A :=
  match o with
  | Returns l => l
  | Raises _ => []
  end.

(** Both keys are in the environment, and no [.env] is found. *)
Definition world_both_keys : world :=
  mk_world (<["OPENAI_API_KEY" := "sk-oa-1"]>
              (<["OPENROUTER_API_KEY" := "sk-or-1"]> ∅))
           false [] [] (gateway_const (status 404 "Not Found")) [].

(** [OPENAI_API_KEY] is set but empty. *)
Definition world_empty_openai_key : world :=
  mk_world (<["OPENAI_API_KEY" := ""]>
              (<["OPENROUTER_API_KEY" := "sk-or-1"]> ∅))
           false [] [] (gateway_const (status 404 "Not Found")) [].

(** [config/.env] binds [OPENAI_API_KEY] twice; the environment holds an
    older key. *)
Definition world_file_openai : world :=
  mk_world (<["OPENAI_API_KEY" := "sk-oa-old"]> ∅) true
           [("OPENAI_API_KEY", "sk-oa-2"); ("OPENAI_API_KEY", "sk-oa-3")] []
           (gateway_const (status 404 "Not Found")) [].

(** No key anywhere. *)
Definition world_without_key : world :=
  mk_world ∅ false [] [("OPENAI_API_KEY", "")]
           (gateway_failing "" (status 500 "Internal Server Error")) [].

(** One model, passed twice. *)
Definition models_aa : list Model.t :=
  [model "a" "A" 0.5%float; model "a" "A" 0.5%float].

(** The three models of the scenario of the specification. *)
Definition models_abc : list Model.t :=
  [model "a" "A" 0.5%float; model "b" "B" 0.25%float;
   model "c" "C" 0.125%float].

Definition models_ab : list Model.t :=
  [model "a" "A" 0.5%float; model "b" "B" 0.25%float].

Definition system_prompt : string := "You are a helpful assistant.".
Definition question : string := "2+2=?".

(** A chat payload whose first choice has a null [finish_reason]. *)
Definition chat_body_null_reason : pyval :=
  PDict [("id", PStr "gen-2");
         ("choices",
          PList [PDict [("message", PDict [("content", PStr "4")]);
                        ("finish_reason", PNone)]])].

Definition world_null_reason : world :=
  world_with (gateway_const (ok chat_body_null_reason)).

(** The gateway answers 200 with a JSON object that has no ["id"]. *)
Definition world_no_id : world :=
  world_with (gateway_const (ok (PDict [("choices", PList [])]))).

(** The gateway answers 204 with no body. *)
Definition world_204 : world :=
  world_with (gateway_const (status 204 "No Content")).

(** What the gateway of [world_b_fails] answers for model ["b"]. *)
Definition error_500 : http_response :=
  mk_http_response 500 "Internal Server Error" None 0.25%float.

Definition response (id : string) : LLMResponse.t :=
  LLMResponse.mk (PStr id) "a" "You are a helpful assistant." "2+2=?"
                 (PStr "4") (PStr "stop") PNone PNone 0.25%float.

(** The gateway fails the chat requests for ["b"] with 500 and the
    transport times out on those for ["c"]. *)
Definition gateway_b_and_c_fail (_ : list request) (req : request)
    : http_result :=
  match requested_model req with
  | Some "b" => status 500 "Internal Server Error"
  | Some "c" => Failed ReadTimeout
  | _ => ok chat_body
  end.

Definition world_b_and_c_fail : world := world_with gateway_b_and_c_fail.

(** The responses that the fan-out returns for the three models when the
    gateway serves every request. *)
Definition responses_abc : list (Model.t * LLMResponse.t) :=
  [(model "a" "A" 0.5%float, response "gen-a");
   (model "b" "B" 0.25%float, response "gen-b");
   (model "c" "C" 0.125%float, response "gen-c")].

(** The gateway has stats for ["gen-b"] only. *)
Definition gateway_stats_for_b (_ : list request) (req : request)
    : http_result :=
  match url req with
  | [_; _; Lit "gen-b"] => ok stats_body
  | _ => status 404 "Not Found"
  end.

Definition world_stats_for_b : world := world_with gateway_stats_for_b.

(** The gateway answers the lookup for ["gen-b"] with an empty object. *)
Definition gateway_bad_stats_for_b (_ : list request) (req : request)
    : http_result :=
  match url req with
  | [_; _; Lit "gen-b"] => ok (PDict [])
  | _ => ok stats_body
  end.

Definition world_bad_stats_for_b : world :=
  world_with gateway_bad_stats_for_b.

(** One item of the catalog, as the gateway documents it. *)
Definition catalog_item (id name : string) (price : string)
    (max_completion_tokens : pyval) : pyval :=
  PDict [("id", PStr id); ("name", PStr name);
         ("pricing", PDict [("prompt", PStr price);
                            ("completion", PStr price)]);
         ("context_length", PInt 4096);
         ("architecture", PDict [("tokenizer", PStr "GPT");
                                 ("instruct_type", PNone)]);
         ("top_provider",
          PDict [("max_completion_tokens", max_completion_tokens)])].

Definition catalog_items : list pyval :=
  [catalog_item "a" "A" "0.5" PNone; catalog_item "b" "B" "0.25" (PInt 1024)].

(** The catalog with a third item that has no ["pricing"]. *)
Definition catalog_items_one_bad : list pyval :=
  (catalog_items ++ [PDict [("id", PStr "c")]; catalog_item "d" "D" "0.5" PNone])%list.

(** [float()] on the price strings of the examples. *)
Definition float_of_str (s : string) : option float :=
  if String.eqb s "0.5" then Some 0.5%float
  else if String.eqb s "0.25" then Some 0.25%float
  else None.

(** [float()] on the integers of the examples. *)
Definition float_of_int (z : Z) : option float :=
  if (z =? 0)%Z then Some 0%float
  else if (z =? 1)%Z then Some 1%float
  else None.

(** What the loop built, or nothing when it raised. *)
Definition built_list {A} (b : built (list A)) : list A :=
  match b with
  | Built l => l
  | Threw _ => []
  end.

(** The gateway serves the catalog; the process has no key. *)
Definition world_catalog (items : list pyval) : world :=
  mk_world ∅ false [] []
           (gateway_const (ok (PDict [("data", PList items)]))) [].

(** The gateway is down for the catalog; the process has no key. *)
Definition world_catalog_503 : world :=
  mk_world ∅ false [] []
           (gateway_const (status 503 "Service Unavailable")) [].

(** What [chat_completion] returns for model ["a"] when the gateway
    serves the request. *)
Definition chat_response_a : LLMResponse.t :=
  LLMResponse.mk (PStr "gen-1") "a" system_prompt question (PStr "4")
    (PStr "not available")
    (chat_payload "a" system_prompt question 0%float 2048)
    chat_body 0.25%float.

(** Two models that share a display name. *)
Definition responses_same_name : list (Model.t * LLMResponse.t) :=
  [(model "x/one" "Same" 0.5%float, response "gen-1");
   (model "y/two" "Same" 0.25%float, response "gen-2")].

End Examples.

(** * Properties *)

(** ** Computations *)

Lemma bind_unfold {A B} (m : M A) (f : A -> M B) (w : world) :
  (m ≫= f) w =
  match m w with
  | (Returns a, w') => f a w'
  | (Raises e, w') => (Raises e, w')
  end.
Proof. reflexivity. Qed.

Lemma load_dotenv_frame (file : list (string * string)) (w : world) :
  sent (load_dotenv file w).2 = sent w
  /\ gateway (load_dotenv file w).2 = gateway w.
Proof. split; reflexivity. Qed.

(** [_get_api_key] reloads the environment from the file and reads the key
    out of what it then finds there. *)
Lemma get_api_key_spec (w : world) :
  _get_api_key w =
  (match resolve_key (loaded_environ w) with
   | Some k => Returns k
   | None => Raises no_key
   end,
   reload w).
Proof.
  unfold _get_api_key, resolve_key, reload, loaded_environ, no_key.
  unfold mbind, M_bind, mret, M_ret, getenv, load_dotenv, raise.
  cbv beta iota.
  destruct (config_is_dir w) eqn:Hdir; cbv beta iota; cbn [environ truthy];
    repeat match goal with
    | |- context [?m !! ?k] =>
        let o := fresh "o" in
        generalize (m !! k); intros o; destruct o as [[|? ?]|]; cbn
    end; rewrite <- ?Hdir; reflexivity.
Qed.

(** Resolving the credential sends nothing and leaves the gateway alone. *)
Lemma get_api_key_frame (w : world) :
  sent (_get_api_key w).2 = sent w /\ gateway (_get_api_key w).2 = gateway w.
Proof. rewrite get_api_key_spec. split; reflexivity. Qed.

(** Runs the credential lookup at the head of a call whose key is known. *)
Ltac run_with Hkey :=
  unfold mbind, M_bind; rewrite get_api_key_spec, Hkey;
  unfold requests_post, requests_get, send; cbn [gateway sent reload].

(** ** chat_completion *)

Lemma chat_completion_no_key (w : world) model prompt user_input temperature
    max_tokens :
  resolve_key (loaded_environ w) = None ->
  chat_completion model prompt user_input temperature max_tokens w
  = (Raises no_key, reload w).
Proof.
  intros Hkey. unfold chat_completion. run_with Hkey. reflexivity.
Qed.

(** With a key, the call sends its one request, whatever the answer is. *)
Lemma chat_completion_world (w : world) key model prompt user_input
    temperature max_tokens :
  resolve_key (loaded_environ w) = Some key ->
  (chat_completion model prompt user_input temperature max_tokens w).2
  = logged (chat_request key model prompt user_input temperature max_tokens)
           (reload w).
Proof.
  intros Hkey. unfold chat_completion. run_with Hkey.
  fold (chat_request key model prompt user_input temperature max_tokens).
  destruct (gateway w (sent w) _) as [r|t]; [|reflexivity].
  destruct (negb (status_code r =? 200)%Z); [reflexivity|].
  unfold lift, mret, M_ret.
  repeat match goal with
  | |- context [match ?o with Returns _ => _ | Raises _ => _ end] =>
      destruct o
  end; reflexivity.
Qed.

Lemma chat_completion_transport (w : world) key model prompt user_input
    temperature max_tokens t :
  resolve_key (loaded_environ w) = Some key ->
  gateway w (sent w)
    (chat_request key model prompt user_input temperature max_tokens)
  = Failed t ->
  (chat_completion model prompt user_input temperature max_tokens w).1
  = Raises (TransportFailure t).
Proof.
  intros Hkey Hgw. unfold chat_completion. run_with Hkey.
  fold (chat_request key model prompt user_input temperature max_tokens).
  rewrite Hgw. reflexivity.
Qed.

Lemma chat_completion_status (w : world) key model prompt user_input
    temperature max_tokens r :
  resolve_key (loaded_environ w) = Some key ->
  gateway w (sent w)
    (chat_request key model prompt user_input temperature max_tokens)
  = Responded r ->
  status_code r <> 200%Z ->
  (chat_completion model prompt user_input temperature max_tokens w).1
  = Raises (HTTPError (Some (exception_text model r)) r).
Proof.
  intros Hkey Hgw Hne. unfold chat_completion. run_with Hkey.
  fold (chat_request key model prompt user_input temperature max_tokens).
  rewrite Hgw. cbv beta iota.
  destruct (Z.eqb_spec (status_code r) 200) as [?|_]; [contradiction|].
  reflexivity.
Qed.

(** ** cost_and_stats *)

Lemma cost_and_stats_no_key (w : world) response :
  resolve_key (loaded_environ w) = None ->
  cost_and_stats response w = (Raises no_key, reload w).
Proof.
  intros Hkey. unfold cost_and_stats. run_with Hkey. reflexivity.
Qed.

(** Destructs every outcome that the goal still branches on. *)
Ltac split_outcomes :=
  repeat match goal with
  | |- context [match ?o with Returns _ => _ | Raises _ => _ end] =>
      destruct o
  end.

Lemma cost_and_stats_world (w : world) key response :
  resolve_key (loaded_environ w) = Some key ->
  (cost_and_stats response w).2
  = logged (stats_request key response) (reload w).
Proof.
  intros Hkey. unfold cost_and_stats. run_with Hkey.
  unfold try_except, raise_for_status, raise, lift, mret, M_ret.
  unfold mbind, M_bind, send.
  change (gateway (reload w)) with (gateway w).
  change (sent (reload w)) with (sent w).
  fold (stats_request key response).
  destruct (gateway w (sent w) _) as [r|t]; cbn; [|reflexivity].
  destruct (status_code r =? 404)%Z; [reflexivity|].
  destruct ((400 <=? status_code r)%Z && (status_code r <? 600)%Z);
    cbn; [reflexivity|].
  split_outcomes; reflexivity.
Qed.

(** The [id] of the stats is copied from the response they are asked for. *)
Lemma cost_and_stats_id (w : world) response stats :
  (cost_and_stats response w).1 = Returns (Some stats) ->
  LLMCostAndStats.id stats = LLMResponse.id response.
Proof.
  unfold cost_and_stats. unfold mbind at 1, M_bind at 1.
  rewrite get_api_key_spec.
  destruct (resolve_key (loaded_environ w)) as [key|]; [|discriminate].
  unfold try_except, raise_for_status, raise, lift, mret, M_ret.
  unfold mbind, M_bind, requests_get, send.
  change (gateway (reload w)) with (gateway w).
  change (sent (reload w)) with (sent w).
  destruct (gateway w (sent w) _) as [r|t]; cbn; [|discriminate].
  destruct (status_code r =? 404)%Z; [discriminate|].
  destruct ((400 <=? status_code r)%Z && (status_code r <? 600)%Z);
    cbn; [discriminate|].
  split_outcomes; cbn; intros H; inversion H; reflexivity.
Qed.

Lemma cost_and_stats_none (w : world) key response :
  resolve_key (loaded_environ w) = Some key ->
  match gateway w (sent w) (stats_request key response) with
  | Failed _ => True
  | Responded r => (400 <= status_code r < 600)%Z
  end ->
  (cost_and_stats response w).1 = Returns None.
Proof.
  intros Hkey Hgw. unfold cost_and_stats. run_with Hkey.
  unfold try_except, raise_for_status, raise, lift, mret, M_ret.
  unfold mbind, M_bind, send.
  change (gateway (reload w)) with (gateway w).
  change (sent (reload w)) with (sent w).
  fold (stats_request key response).
  destruct (gateway w (sent w) _) as [r|t]; cbn; [|reflexivity].
  destruct (status_code r =? 404)%Z; [reflexivity|].
  replace ((400 <=? status_code r)%Z && (status_code r <? 600)%Z) with true;
    [reflexivity|].
  symmetry. apply andb_true_intro. split; [apply Z.leb_le|apply Z.ltb_lt]; lia.
Qed.

(** What a call that returns has been through: a key was found, the gateway
    answered 200 with a JSON object, and the fields of the response are the
    arguments of the call and the parts of that object. *)
Lemma chat_completion_returns (w : world) model prompt user_input
    temperature max_tokens (resp : LLMResponse.t) :
  (chat_completion model prompt user_input temperature max_tokens w).1
  = Returns resp ->
  exists key r d,
    resolve_key (loaded_environ w) = Some key
    /\ gateway w (sent w)
         (chat_request key model prompt user_input temperature max_tokens)
       = Responded r
    /\ status_code r = 200%Z
    /\ body r = Some (PDict d)
    /\ assoc "id" d = Some (LLMResponse.id resp)
    /\ LLMResponse.model resp = model
    /\ LLMResponse.prompt resp = prompt
    /\ LLMResponse.user_input resp = user_input
    /\ LLMResponse.raw_request resp
       = chat_payload model prompt user_input temperature max_tokens
    /\ LLMResponse.raw_response resp = PDict d
    /\ LLMResponse.elapsed_time resp = elapsed r.
Proof.
  unfold chat_completion. unfold mbind at 1, M_bind at 1.
  rewrite get_api_key_spec.
  destruct (resolve_key (loaded_environ w)) as [key|]; [|discriminate].
  unfold mbind at 1, M_bind at 1. unfold requests_post, send.
  change (gateway (reload w)) with (gateway w).
  change (sent (reload w)) with (sent w).
  fold (chat_request key model prompt user_input temperature max_tokens).
  destruct (gateway w (sent w) _) as [r|t] eqn:Hgw; [|discriminate].
  cbv beta iota.
  destruct (Z.eqb_spec (status_code r) 200) as [Hst|Hst]; [|discriminate].
  cbn [negb]. unfold mbind, M_bind, lift, mret, M_ret, response_json.
  destruct (body r) as [data|] eqn:Hbody; [|discriminate].
  destruct data as [| | | | | |d]; try discriminate.
  cbn [getitem].
  destruct (assoc "id" d) as [id|] eqn:Hid; [|discriminate].
  destruct (assoc "choices" d) as [choices|]; [|discriminate].
  cbn [py_get].
  split_outcomes; try discriminate.
  intros H. inversion H; subst. cbn.
  exists key, r, d. repeat split; assumption.
Qed.

(** ** available_models *)

Lemma available_models_world (w : world) :
  (available_models w).2 = logged models_request w.
Proof.
  unfold available_models, requests_get, raise_for_status, raise, lift.
  unfold mbind, M_bind, mret, M_ret, send. fold models_request.
  destruct (gateway w (sent w) _) as [r|t]; cbn; [|reflexivity].
  destruct ((400 <=? status_code r)%Z && (status_code r <? 600)%Z);
    cbn; [reflexivity|].
  split_outcomes; reflexivity.
Qed.

(** ** The claims about single calls *)

(** C3, as amended: with a credential at hand, a stats lookup that the gateway
    answers with 404 or any other 4xx or 5xx status, or whose transport
    fails, returns [None] after its one request. *)
Theorem cost_and_stats_absent (w : world) (key : string)
    (response : LLMResponse.t) :
  resolve_key (loaded_environ w) = Some key ->
  match gateway w (sent w) (stats_request key response) with
  | Failed _ => True
  | Responded r => (400 <= status_code r < 600)%Z
  end ->
  cost_and_stats response w
  = (Returns None, logged (stats_request key response) (reload w)).
Proof.
  intros Hkey Hgw.
  rewrite (surjective_pairing (cost_and_stats response w)).
  f_equal.
  - eapply cost_and_stats_none; eassumption.
  - apply cost_and_stats_world; assumption.
Qed.

Lemma cost_and_stats_absent_witness :
  resolve_key (loaded_environ Examples.world_404) = Some "sk-or-1"
  /\ cost_and_stats (Examples.response "gen-1") Examples.world_404
     = (Returns None,
        logged (stats_request "sk-or-1" (Examples.response "gen-1"))
               (reload Examples.world_404)).
Proof.
  split; [reflexivity|].
  apply (cost_and_stats_absent Examples.world_404 "sk-or-1");
    [reflexivity|].
  cbn. lia.
Defined.

(** C3, as stated, fails: a lookup that the gateway answers with 200 and a
    JSON object without ["data"] raises [KeyError] to the caller. *)
Lemma cost_and_stats_raises_on_payload :
  (cost_and_stats (Examples.response "gen-1")
     (Examples.world_with
        (Examples.gateway_const (Examples.ok (PDict []))))).1
  = Raises (KeyError (PStr "data")).
Proof. reflexivity. Qed.

(** C8: stats that a lookup returns carry the correlation id of the response
    they were asked for, so two lookups for the same id that both return
    stats agree on it with each other and with the input. *)
Theorem stats_id_is_correlation_id (w1 w2 : world)
    (r1 r2 : LLMResponse.t) (s1 s2 : LLMCostAndStats.t) :
  LLMResponse.id r1 = LLMResponse.id r2 ->
  (cost_and_stats r1 w1).1 = Returns (Some s1) ->
  (cost_and_stats r2 w2).1 = Returns (Some s2) ->
  LLMCostAndStats.id s1 = LLMResponse.id r1
  /\ LLMCostAndStats.id s2 = LLMResponse.id r1
  /\ LLMCostAndStats.id s1 = LLMCostAndStats.id s2.
Proof.
  intros Hid H1 H2.
  apply cost_and_stats_id in H1. apply cost_and_stats_id in H2.
  rewrite H1, H2, Hid. auto.
Qed.

Lemma stats_id_is_correlation_id_witness :
  exists s1 s2,
    (cost_and_stats (Examples.response "gen-1") Examples.world_ok).1
    = Returns (Some s1)
    /\ (cost_and_stats (Examples.response "gen-1")
          (cost_and_stats (Examples.response "gen-1") Examples.world_ok).2).1
       = Returns (Some s2)
    /\ LLMCostAndStats.id s1 = PStr "gen-1"
    /\ LLMCostAndStats.id s2 = PStr "gen-1"
    /\ LLMCostAndStats.id s1 = LLMCostAndStats.id s2.
Proof.
  eexists. eexists.
  split; [reflexivity|]. split; [reflexivity|].
  exact (stats_id_is_correlation_id
           Examples.world_ok
           (cost_and_stats (Examples.response "gen-1") Examples.world_ok).2
           (Examples.response "gen-1") (Examples.response "gen-1")
           _ _ eq_refl eq_refl eq_refl).
Defined.

(** C10: whatever status other than 200 the gateway answers a chat request
    with, [chat_completion] raises an [HTTPError] whose text names the model
    and the status and which carries the response; it builds no
    [LLMResponse]. *)
Theorem chat_completion_rejects_non_200 (w : world) (key : string)
    (model prompt user_input : string) (temperature : float) (max_tokens : Z)
    (r : http_response) :
  resolve_key (loaded_environ w) = Some key ->
  gateway w (sent w)
    (chat_request key model prompt user_input temperature max_tokens)
  = Responded r ->
  status_code r <> 200%Z ->
  (chat_completion model prompt user_input temperature max_tokens w).1
  = Raises (HTTPError
              (Some (model +:+ newline +:+ "HTTP error "
                     +:+ pretty (status_code r) +:+ " - " +:+ reason r))
              r).
Proof. apply chat_completion_status. Qed.

Lemma chat_completion_rejects_non_200_witness :
  (chat_completion "a" "You are a helpful assistant." "2+2=?" 0%float 2048
     Examples.world_201).1
  = Raises (HTTPError
              (Some ("a" +:+ newline +:+ "HTTP error 201 - Created"))
              (mk_http_response 201 "Created" (Some Examples.chat_body)
                                0.25%float)).
Proof.
  refine (chat_completion_rejects_non_200 Examples.world_201 "sk-or-1"
            "a" "You are a helpful assistant." "2+2=?" 0%float 2048
            (mk_http_response 201 "Created" (Some Examples.chat_body)
                              0.25%float)
            eq_refl eq_refl _).
  cbn. lia.
Defined.

(** C9, as amended: when the gateway answers a chat request with status 200
    and a payload that has an ["id"] and whose first choice has a message
    with a ["content"] but no ["finish_reason"], [chat_completion] returns a
    response whose [finish_reason] is ["not available"]. *)
Theorem missing_finish_reason_not_available (w : world) (key : string)
    (model prompt user_input : string) (temperature : float) (max_tokens : Z)
    (r : http_response) (d choice : list (string * pyval))
    (rest : list pyval) (id message content : pyval) :
  resolve_key (loaded_environ w) = Some key ->
  gateway w (sent w)
    (chat_request key model prompt user_input temperature max_tokens)
  = Responded r ->
  status_code r = 200%Z ->
  body r = Some (PDict d) ->
  assoc "id" d = Some id ->
  assoc "choices" d = Some (PList (PDict choice :: rest)) ->
  assoc "message" choice = Some message ->
  getitem message "content" = Returns content ->
  assoc "finish_reason" choice = None ->
  (chat_completion model prompt user_input temperature max_tokens w).1
  = Returns (LLMResponse.mk id model prompt user_input content
               (PStr "not available")
               (chat_payload model prompt user_input temperature max_tokens)
               (PDict d) (elapsed r)).
Proof.
  intros Hkey Hgw Hst Hbody Hid Hch Hmsg Hcontent Hfr.
  unfold chat_completion. run_with Hkey.
  fold (chat_request key model prompt user_input temperature max_tokens).
  rewrite Hgw. cbv beta iota. rewrite Hst. cbn [Z.eqb Pos.eqb negb].
  unfold lift, mret, M_ret, response_json. rewrite Hbody.
  cbn [getitem py_get]. rewrite Hid, Hch. cbn [getitem0 getitem py_get].
  rewrite Hmsg, Hcontent, Hfr. reflexivity.
Qed.

Lemma missing_finish_reason_not_available_witness :
  (chat_completion "a" "You are a helpful assistant." "2+2=?" 0%float 2048
     Examples.world_ok).1
  = Returns (LLMResponse.mk (PStr "gen-1") "a" "You are a helpful assistant."
               "2+2=?" (PStr "4") (PStr "not available")
               (chat_payload "a" "You are a helpful assistant." "2+2=?"
                             0%float 2048)
               Examples.chat_body 0.25%float).
Proof.
  exact (missing_finish_reason_not_available Examples.world_ok "sk-or-1"
           "a" "You are a helpful assistant." "2+2=?" 0%float 2048
           (mk_http_response 200 "OK" (Some Examples.chat_body) 0.25%float)
           _ _ _ (PStr "gen-1") _ (PStr "4")
           eq_refl eq_refl eq_refl eq_refl eq_refl eq_refl eq_refl eq_refl
           eq_refl).
Defined.

(** C9, as stated, fails: 201 is a 2xx status, the payload is well formed and
    has no [finish_reason], and the call raises instead of returning. *)
Lemma finish_reason_201_raises :
  (200 <= 201 < 300)%Z
  /\ (chat_completion "a" "You are a helpful assistant." "2+2=?" 0%float 2048
        Examples.world_201).1
     = Raises (HTTPError
                 (Some ("a" +:+ newline +:+ "HTTP error 201 - Created"))
                 (mk_http_response 201 "Created" (Some Examples.chat_body)
                                   0.25%float)).
Proof. split; [lia|reflexivity]. Qed.

(** C5, as amended: [chat_completion] does not reject a [max_tokens] of 0
    or below: with a credential at hand, for every integer [max_tokens] of
    fewer than 640 digits, 0 and the negative ones like 1, and for every
    finite [temperature], 0.0 and 1.0 among them, it calls [requests.post]
    with a payload that [requests] can encode and that carries the two
    values as they were given. *)
Theorem chat_completion_sends_any_arguments (w : world) (key : string)
    (model prompt user_input : string) (temperature : float)
    (max_tokens : Z) (limit : Z) :
  resolve_key (loaded_environ w) = Some key ->
  PrimFloat.is_finite temperature = true ->
  (Z.abs max_tokens < 10 ^ 640)%Z ->
  digits_limit_ok limit ->
  exists req payload,
    sent (chat_completion model prompt user_input temperature max_tokens w).2
    = (sent w ++ [req])%list
    /\ method req = POST
    /\ json req = Some payload
    /\ json_encodable limit payload = true
    /\ getitem payload "max_tokens" = Returns (PInt max_tokens)
    /\ getitem payload "temperature" = Returns (PFloat temperature).
Proof.
  intros Hkey Hfinite Hdigits Hlimit.
  exists (chat_request key model prompt user_input temperature max_tokens).
  exists (chat_payload model prompt user_input temperature max_tokens).
  rewrite (chat_completion_world w key) by assumption.
  split; [reflexivity|]. split; [reflexivity|]. split; [reflexivity|].
  split; [|split; reflexivity].
  cbn [chat_payload json_encodable forallb snd andb]. rewrite Hfinite.
  cbn [andb]. rewrite andb_true_r.
  destruct Hlimit as [->|Hlimit]; [reflexivity|].
  apply orb_true_iff. right. apply Z.ltb_lt.
  eapply Z.lt_le_trans; [exact Hdigits|].
  apply Z.pow_le_mono_r; lia.
Qed.

Lemma chat_completion_sends_any_arguments_witness :
  exists req payload,
    sent (chat_completion "a" "You are a helpful assistant." "2+2=?"
            1%float (-5) Examples.world_ok).2
    = (sent Examples.world_ok ++ [req])%list
    /\ method req = POST
    /\ json req = Some payload
    /\ json_encodable 4300 payload = true
    /\ getitem payload "max_tokens" = Returns (PInt (-5))
    /\ getitem payload "temperature" = Returns (PFloat 1%float).
Proof.
  refine (chat_completion_sends_any_arguments Examples.world_ok "sk-or-1"
            "a" "You are a helpful assistant." "2+2=?" 1%float (-5) 4300
            eq_refl eq_refl _ _).
  - reflexivity.
  - right. lia.
Defined.

(** C5, as stated, fails: a call with [max_tokens = 0] is not rejected; the
    request goes out with ["max_tokens": 0] and the call returns what the
    gateway answered. *)
Lemma max_tokens_zero_is_sent :
  is_Returns
    (chat_completion "a" "You are a helpful assistant." "2+2=?" 0%float 0
       Examples.world_ok).1 = true
  /\ sent (chat_completion "a" "You are a helpful assistant." "2+2=?"
             0%float 0 Examples.world_ok).2
     = [chat_request "sk-or-1" "a" "You are a helpful assistant." "2+2=?"
          0%float 0]
  /\ getitem (chat_payload "a" "You are a helpful assistant." "2+2=?"
                0%float 0) "max_tokens"
     = Returns (PInt 0).
Proof. repeat split. Qed.

(** C6, as amended: the timeout of a chat request is 120 seconds and that of
    a stats or a catalog request is 360 seconds, so the chat bound is the
    shorter of the two. *)
Theorem chat_timeout_shorter (w : world) (key : string)
    (model prompt user_input : string) (temperature : float)
    (max_tokens : Z) (response : LLMResponse.t) :
  resolve_key (loaded_environ w) = Some key ->
  exists chat stats catalog,
    sent (chat_completion model prompt user_input temperature max_tokens w).2
    = (sent w ++ [chat])%list
    /\ sent (cost_and_stats response w).2 = (sent w ++ [stats])%list
    /\ sent (available_models w).2 = (sent w ++ [catalog])%list
    /\ timeout chat = 120%Z
    /\ timeout stats = 360%Z
    /\ timeout catalog = 360%Z
    /\ (timeout chat < timeout stats)%Z
    /\ (timeout chat < timeout catalog)%Z.
Proof.
  intros Hkey.
  exists (chat_request key model prompt user_input temperature max_tokens).
  exists (stats_request key response), models_request.
  rewrite (chat_completion_world w key), (cost_and_stats_world w key),
    available_models_world by assumption.
  cbn. repeat split; lia.
Qed.

Lemma chat_timeout_shorter_witness :
  exists chat stats catalog,
    sent (chat_completion "a" "You are a helpful assistant." "2+2=?"
            0%float 2048 Examples.world_ok).2
    = (sent Examples.world_ok ++ [chat])%list
    /\ sent (cost_and_stats (Examples.response "gen-1") Examples.world_ok).2
       = (sent Examples.world_ok ++ [stats])%list
    /\ sent (available_models Examples.world_ok).2
       = (sent Examples.world_ok ++ [catalog])%list
    /\ timeout chat = 120%Z
    /\ timeout stats = 360%Z
    /\ timeout catalog = 360%Z
    /\ (timeout chat < timeout stats)%Z
    /\ (timeout chat < timeout catalog)%Z.
Proof.
  exact (chat_timeout_shorter Examples.world_ok "sk-or-1"
           "a" "You are a helpful assistant." "2+2=?" 0%float 2048
           (Examples.response "gen-1") eq_refl).
Defined.

(** C6, as stated, fails: the bound of the chat request that goes out is not
    longer than the bound of the stats request or of the catalog request. *)
Lemma chat_timeout_not_longer :
  exists chat stats catalog,
    sent (chat_completion "a" "You are a helpful assistant." "2+2=?"
            0%float 2048 Examples.world_ok).2 = [chat]
    /\ sent (cost_and_stats (Examples.response "gen-1") Examples.world_ok).2
       = [stats]
    /\ sent (available_models Examples.world_ok).2 = [catalog]
    /\ ~ (timeout chat > timeout stats)%Z
    /\ ~ (timeout chat > timeout catalog)%Z.
Proof.
  eexists. eexists. eexists.
  split; [reflexivity|]. split; [reflexivity|]. split; [reflexivity|].
  cbn. lia.
Qed.

(** C4, as amended: a chat request and a stats request carry
    [Authorization: Bearer <key>], the key being the one that the process
    environment, reloaded from the [.env] file, holds when the call is made;
    the catalog request carries no header at all and the call does not look
    the key up. *)
Theorem authorization_resolved_per_call (w : world) (key : string) :
  resolve_key (loaded_environ w) = Some key ->
  (forall model prompt user_input temperature max_tokens,
     exists req,
       sent (chat_completion model prompt user_input temperature
               max_tokens w).2 = (sent w ++ [req])%list
       /\ assoc "Authorization" (headers req) = Some ("Bearer " +:+ key))
  /\ (forall response,
        exists req,
          sent (cost_and_stats response w).2 = (sent w ++ [req])%list
          /\ assoc "Authorization" (headers req) = Some ("Bearer " +:+ key))
  /\ (exists req,
        sent (available_models w).2 = (sent w ++ [req])%list
        /\ headers req = []
        /\ environ (available_models w).2 = environ w).
Proof.
  intros Hkey. split; [|split].
  - intros model prompt user_input temperature max_tokens.
    exists (chat_request key model prompt user_input temperature max_tokens).
    rewrite (chat_completion_world w key) by assumption. split; reflexivity.
  - intros response. exists (stats_request key response).
    rewrite (cost_and_stats_world w key) by assumption. split; reflexivity.
  - exists models_request. rewrite available_models_world.
    repeat split.
Qed.

Lemma authorization_resolved_per_call_witness :
  (forall model prompt user_input temperature max_tokens,
     exists req,
       sent (chat_completion model prompt user_input temperature
               max_tokens Examples.world_rotated).2
       = (sent Examples.world_rotated ++ [req])%list
       /\ assoc "Authorization" (headers req) = Some "Bearer sk-or-2")
  /\ (forall response,
        exists req,
          sent (cost_and_stats response Examples.world_rotated).2
          = (sent Examples.world_rotated ++ [req])%list
          /\ assoc "Authorization" (headers req) = Some "Bearer sk-or-2")
  /\ (exists req,
        sent (available_models Examples.world_rotated).2
        = (sent Examples.world_rotated ++ [req])%list
        /\ headers req = []
        /\ environ (available_models Examples.world_rotated).2
           = environ Examples.world_rotated).
Proof.
  exact (authorization_resolved_per_call Examples.world_rotated "sk-or-2"
           eq_refl).
Defined.

(** C4, as stated, fails: the request that [available_models] sends has no
    [Authorization] header. *)
Lemma catalog_request_without_authorization :
  sent (available_models Examples.world_ok).2 = [models_request]
  /\ assoc "Authorization" (headers models_request) = None.
Proof. split; reflexivity. Qed.

(** ** Models as keys *)

(** C7, as stated, fails: two models with one identifier and two prices are
    two keys, and the mapping that the fan-out returns for them has the two
    models, not the identifier, as its keys. *)
Lemma same_id_different_price_two_keys :
  Model.id (Examples.model "a" "A" 0.5%float)
  = Model.id (Examples.model "a" "A" 0.25%float)
  /\ Model.eqb (Examples.model "a" "A" 0.5%float)
               (Examples.model "a" "A" 0.25%float) = false
  /\ exists results,
       (chat_completion_multiple [0; 1]%nat
          [Examples.model "a" "A" 0.5%float;
           Examples.model "a" "A" 0.25%float]
          "You are a helpful assistant." "2+2=?" 0%float 2048
          Examples.world_ok).1 = Returns results
       /\ dict_keys results
          = [Examples.model "a" "A" 0.5%float;
             Examples.model "a" "A" 0.25%float].
Proof.
  split; [reflexivity|]. split; [reflexivity|].
  eexists. split; reflexivity.
Qed.

(** ** The fan-out *)

Section Pool.
Context {A : Type}.

(** Submitting never raises: every future is created, whatever its task
    does. *)
Lemma submit_all_run (tasks : list (M A)) (w : world) :
  submit_all tasks w = (Returns (run_all tasks w).1, (run_all tasks w).2).
Proof.
  revert w. induction tasks as [|task rest IH]; intros w; [reflexivity|].
  cbn [submit_all run_all]. unfold mbind, M_bind, submit, mret, M_ret.
  destruct (task w) as [o w1]. rewrite IH.
  destruct (run_all rest w1) as [os w2]. reflexivity.
Qed.

Lemma run_all_length (tasks : list (M A)) (w : world) :
  length (run_all tasks w).1 = length tasks.
Proof.
  revert w. induction tasks as [|task rest IH]; intros w; [reflexivity|].
  cbn [run_all]. destruct (task w) as [o w1]. specialize (IH w1).
  destruct (run_all rest w1) as [os w2]. cbn in *. congruence.
Qed.
End Pool.

Lemma omap_lookup_from {F} (l : list F) (f : nat -> option F) (k : nat) :
  (forall i, (i < length l)%nat -> f (k + i)%nat = l !! i) ->
  omap f (seq k (length l)) = l.
Proof.
  revert k; induction l as [|x l IH]; intros k Hf; [reflexivity|].
  cbn [length seq].
  specialize (Hf 0%nat) as H0. rewrite Nat.add_0_r in H0.
  specialize (H0 ltac:(cbn; lia)). cbn in H0.
  change (omap f (k :: seq (S k) (length l)))
    with (match f k with
          | Some y => y :: omap f (seq (S k) (length l))
          | None => omap f (seq (S k) (length l))
          end).
  rewrite H0. f_equal.
  apply IH. intros i Hi.
  replace (S k + i)%nat with (k + S i)%nat by lia.
  rewrite Hf by (cbn; lia). reflexivity.
Qed.

(** When every future completes once, [as_completed] hands out the futures
    in another order, none lost and none twice. *)
Lemma as_completed_perm {F} (completed : list nat) (futures : list F) :
  completed ≡ₚ seq 0 (length futures) ->
  as_completed completed futures ≡ₚ futures.
Proof.
  intros Hperm. unfold as_completed. rewrite Hperm.
  rewrite (omap_lookup_from futures _ 0%nat); [reflexivity|].
  intros i _. reflexivity.
Qed.

Section Collect.
Context {K V : Type} (eqb : K -> K -> bool).

(** An exception held by one of the futures ends the loop. *)
Lemma collect_raises (futures : list (outcome V * K))
    (results : list (K * V)) :
  (exists e, Raises e ∈ futures.*1) ->
  exists e, Raises e ∈ futures.*1
            /\ collect eqb futures results = Raises e.
Proof.
  revert results.
  induction futures as [|[future model] rest IH]; intros results [e He].
  - cbn in He. apply elem_of_nil in He. contradiction.
  - cbn [collect]. destruct future as [r|e'].
    + cbn in He. apply elem_of_cons in He as [He|He]; [discriminate|].
      destruct (IH (dict_set eqb model r results)) as (e1 & Hin & Hc);
        [eauto|].
      exists e1. split; [|assumption]. cbn. apply elem_of_cons. auto.
    + exists e'. split; [|reflexivity]. cbn. apply elem_of_cons. auto.
Qed.

Lemma dict_set_fresh (k : K) (v : V) (d : list (K * V)) :
  Forall (fun k' => eqb k' k = false) (dict_keys d) ->
  dict_set eqb k v d = (d ++ [(k, v)])%list.
Proof.
  induction d as [|[k' v'] d IH]; intros Hd; [reflexivity|].
  cbn in Hd. apply Forall_cons in Hd as [Hk Hd].
  cbn [dict_set]. rewrite Hk. cbn. f_equal. auto.
Qed.

(** When no future holds an exception and the keys are pairwise apart, the
    loop adds one entry per future, in the order it meets them. *)
Lemma collect_returns (futures : list (outcome V * K))
    (results : list (K * V)) :
  Forall (fun o => is_Returns o = true) futures.*1 ->
  ForallOrdPairs (apart eqb) futures.*2 ->
  Forall (fun k' => Forall (fun k => eqb k' k = false) futures.*2)
         (dict_keys results) ->
  exists added,
    collect eqb futures results = Returns (results ++ added)%list
    /\ dict_keys added = futures.*2.
Proof.
  revert results.
  induction futures as [|[future model] rest IH];
    intros results Hret Hfop Hold.
  - exists []. rewrite app_nil_r. split; reflexivity.
  - cbn in Hret. apply Forall_cons in Hret as [Hr Hret].
    destruct future as [r|e]; [|discriminate].
    cbn in Hfop. inversion Hfop as [|? ? Hmodel Hrest]; subst.
    cbn [collect]. rewrite dict_set_fresh.
    + destruct (IH (results ++ [(model, r)])%list) as (added & Hc & Hk);
        [assumption|assumption| |].
      * unfold dict_keys. rewrite map_app. apply Forall_app. split.
        -- eapply Forall_impl; [exact Hold|].
           cbn. intros k' Hk'. apply Forall_cons in Hk'. tauto.
        -- cbn. constructor; [|constructor].
           eapply Forall_impl; [exact Hmodel|].
           intros k Hk. exact (proj1 Hk).
      * exists ((model, r) :: added). rewrite Hc.
        split; [rewrite <- app_assoc; reflexivity|].
        cbn. f_equal. exact Hk.
    + eapply Forall_impl; [exact Hold|].
      cbn. intros k' Hk'. apply Forall_cons in Hk'. tauto.
Qed.

Lemma apart_sym (a b : K) : apart eqb a b -> apart eqb b a.
Proof. unfold apart. tauto. Qed.

Lemma pairwise_apart_perm (l l' : list K) :
  l ≡ₚ l' ->
  ForallOrdPairs (apart eqb) l -> ForallOrdPairs (apart eqb) l'.
Proof.
  induction 1 as [|x l l' Hperm IH|x y l|l l' l'' _ IH1 _ IH2]; intros H.
  - assumption.
  - inversion H as [|? ? Hx Hl]; subst. constructor; [|auto].
    rewrite <- Hperm. assumption.
  - inversion H as [|? ? Hy Hxl]; subst.
    inversion Hxl as [|? ? Hx Hl]; subst.
    inversion Hy as [|? ? Hyx Hyl]; subst.
    constructor.
    + constructor; [apply apart_sym; assumption|assumption].
    + constructor; assumption.
  - auto.
Qed.
End Collect.

(** ** Reloading the environment *)

Lemma load_into_snoc env file k v :
  load_into env (file ++ [(k, v)]) = <[k := v]> (load_into env file).
Proof. unfold load_into. rewrite foldl_app. reflexivity. Qed.

Lemma load_into_overwritten env file k v v0 :
  <[k := v]> (load_into (<[k := v0]> env) file)
  = <[k := v]> (load_into env file).
Proof.
  revert env. induction file as [|[k1 v1] file IH]; intros env.
  - cbn. apply insert_insert_eq.
  - cbn [load_into foldl]. fold (load_into (<[k1 := v1]> (<[k := v0]> env)) file).
    fold (load_into (<[k1 := v1]> env) file).
    destruct (decide (k1 = k)) as [->|Hne].
    + rewrite insert_insert_eq. reflexivity.
    + rewrite insert_insert_ne by assumption. apply IH.
Qed.

(** Loading the same file again changes nothing. *)
Lemma load_into_idem env file :
  load_into (load_into env file) file = load_into env file.
Proof.
  induction file as [|[k v] file IH] using rev_ind; [reflexivity|].
  rewrite !load_into_snoc, load_into_overwritten, IH. reflexivity.
Qed.

Lemma loaded_environ_reload (w : world) :
  loaded_environ (reload w) = loaded_environ w.
Proof.
  unfold loaded_environ, reload. cbn.
  apply (load_into_idem (environ w)).
Qed.

Lemma chat_completion_multiple_run (completed : list nat)
    (models : list Model.t) prompt user_input temperature max_tokens
    (w : world) :
  chat_completion_multiple completed models prompt user_input temperature
    max_tokens w
  = (collect Model.eqb
       (as_completed completed
          (zip (run_all (chat_tasks models prompt user_input temperature
                           max_tokens) w).1
               models))
       [],
     (run_all (chat_tasks models prompt user_input temperature max_tokens)
              w).2).
Proof.
  unfold chat_completion_multiple, mbind, M_bind.
  rewrite submit_all_run. reflexivity.
Qed.

Lemma chat_tasks_length (models : list Model.t) prompt user_input temperature
    max_tokens (w : world) :
  length (run_all (chat_tasks models prompt user_input temperature
                     max_tokens) w).1
  = length models.
Proof. rewrite run_all_length. unfold chat_tasks. apply length_map. Qed.

(** A call never takes a request out of the log. *)
Lemma chat_completion_keeps_log (w : world) model prompt user_input
    temperature max_tokens (req : request) :
  req ∈ sent w ->
  req ∈ sent (chat_completion model prompt user_input temperature
                max_tokens w).2.
Proof.
  intros Hin. destruct (resolve_key (loaded_environ w)) as [key|] eqn:Hkey.
  - rewrite (chat_completion_world w key) by assumption.
    cbn. apply elem_of_app. auto.
  - rewrite chat_completion_no_key by assumption. exact Hin.
Qed.

Lemma chat_tasks_keep_log (models : list Model.t) prompt user_input
    temperature max_tokens (w : world) (req : request) :
  req ∈ sent w ->
  req ∈ sent (run_all (chat_tasks models prompt user_input temperature
                         max_tokens) w).2.
Proof.
  revert w. induction models as [|model rest IH]; intros w Hin;
    [exact Hin|].
  cbn [chat_tasks map run_all].
  pose proof (chat_completion_keeps_log w (Model.id model) prompt user_input
                temperature max_tokens req Hin) as H1.
  destruct (chat_completion _ _ _ _ _ w) as [o w1].
  fold (chat_tasks rest prompt user_input temperature max_tokens).
  specialize (IH w1 H1). destruct (run_all _ w1) as [os w2]. exact IH.
Qed.

(** A call that returns a response has made its request. *)
Lemma chat_completion_returns_sent (w : world) model prompt user_input
    temperature max_tokens (r : LLMResponse.t) :
  (chat_completion model prompt user_input temperature max_tokens w).1
  = Returns r ->
  LLMResponse.model r = model
  /\ exists key,
       chat_request key model prompt user_input temperature max_tokens
       ∈ sent (chat_completion model prompt user_input temperature
                 max_tokens w).2.
Proof.
  intros H. apply chat_completion_returns in H
    as (key & ? & ? & Hkey & _ & _ & _ & _ & Hmodel & _).
  split; [exact Hmodel|]. exists key.
  rewrite (chat_completion_world w key) by assumption.
  cbn. apply elem_of_app. right. apply list_elem_of_singleton. reflexivity.
Qed.

(** Every task of the chat pool that returned a response returned it for the
    identifier of its model, and its request is in the log that the pool
    leaves. *)
Lemma chat_tasks_answered (models : list Model.t) prompt user_input
    temperature max_tokens (w : world) :
  Forall (fun f : outcome LLMResponse.t * Model.t =>
            forall r, f.1 = Returns r ->
              LLMResponse.model r = Model.id f.2
              /\ exists key,
                   chat_request key (Model.id f.2) prompt user_input
                                temperature max_tokens
                   ∈ sent (run_all (chat_tasks models prompt user_input
                                      temperature max_tokens) w).2)
         (zip (run_all (chat_tasks models prompt user_input temperature
                          max_tokens) w).1
              models).
Proof.
  revert w. induction models as [|model rest IH]; intros w.
  - constructor.
  - cbn [chat_tasks map run_all].
    pose proof (chat_completion_returns_sent w (Model.id model) prompt
                  user_input temperature max_tokens) as Hret.
    destruct (chat_completion _ _ _ _ _ w) as [o w1].
    fold (chat_tasks rest prompt user_input temperature max_tokens).
    specialize (IH w1).
    pose proof (chat_tasks_keep_log rest prompt user_input temperature
                  max_tokens w1) as Hkeep.
    destruct (run_all _ w1) as [os w2].
    cbn in *. constructor; [|exact IH].
    cbn. intros r ->. destruct (Hret r eq_refl) as (Hm & key & Hin).
    split; [exact Hm|]. exists key. apply Hkeep. exact Hin.
Qed.

(** ** The claims about the fan-out *)

(** C1, as amended: when the chat call of at least one model raises,
    [chat_completion_multiple] returns no mapping; it raises the exception of
    one of the failed calls, and the results of the calls that succeeded are
    lost.  The sibling tasks are not aborted: every call that returned a
    response had made its request, which is in the log by then. *)
Theorem failure_discards_the_batch (completed : list nat)
    (models : list Model.t) (prompt user_input : string)
    (temperature : float) (max_tokens : Z) (w : world) :
  completed ≡ₚ seq 0 (length models) ->
  (exists e,
     Raises e ∈ (run_all (chat_tasks models prompt user_input temperature
                            max_tokens) w).1) ->
  exists e,
    Raises e ∈ (run_all (chat_tasks models prompt user_input temperature
                           max_tokens) w).1
    /\ (chat_completion_multiple completed models prompt user_input
          temperature max_tokens w).1 = Raises e
    /\ forall model r,
         (Returns r, model)
         ∈ zip (run_all (chat_tasks models prompt user_input temperature
                           max_tokens) w).1 models ->
         LLMResponse.model r = Model.id model
         /\ exists key,
              chat_request key (Model.id model) prompt user_input
                           temperature max_tokens
              ∈ sent (chat_completion_multiple completed models prompt
                        user_input temperature max_tokens w).2.
Proof.
  intros Hperm Hfail.
  rewrite chat_completion_multiple_run. cbn [fst snd].
  pose proof (chat_tasks_length models prompt user_input temperature
                max_tokens w) as Hlen.
  pose proof (chat_tasks_answered models prompt user_input temperature
                max_tokens w) as Hanswered.
  set (outcomes := (run_all _ w).1) in *.
  assert (Hfutures : as_completed completed (zip outcomes models)
                     ≡ₚ zip outcomes models).
  { apply as_completed_perm. rewrite length_zip_with_l_eq by assumption.
    rewrite Hlen. assumption. }
  destruct (collect_raises Model.eqb
              (as_completed completed (zip outcomes models)) [])
    as (e & Hin & Hcollect).
  { destruct Hfail as [e He]. exists e.
    rewrite Hfutures, fst_zip by lia. assumption. }
  exists e. split; [|split].
  - rewrite Hfutures, fst_zip in Hin by lia. assumption.
  - assumption.
  - intros model r Hf. rewrite Forall_forall in Hanswered.
    exact (Hanswered _ Hf r eq_refl).
Qed.

(** C2, as amended: for models that are pairwise distinct as dict keys,
    none of them with a NaN price, and whose chat calls all succeed,
    [chat_completion_multiple] returns a mapping whose keys are the input
    models, each of them once. *)
Theorem all_succeed_one_entry_per_model (completed : list nat)
    (models : list Model.t) (prompt user_input : string)
    (temperature : float) (max_tokens : Z) (w : world) :
  completed ≡ₚ seq 0 (length models) ->
  Forall self_equal models ->
  distinct_models models ->
  Forall (fun o => is_Returns o = true)
         (run_all (chat_tasks models prompt user_input temperature
                     max_tokens) w).1 ->
  exists results,
    (chat_completion_multiple completed models prompt user_input
       temperature max_tokens w).1 = Returns results
    /\ dict_keys results ≡ₚ models
    /\ length results = length models.
Proof.
  intros Hperm _ Hdistinct Hok.
  rewrite chat_completion_multiple_run. cbn [fst].
  pose proof (chat_tasks_length models prompt user_input temperature
                max_tokens w) as Hlen.
  set (outcomes := (run_all _ w).1) in *.
  assert (Hfutures : as_completed completed (zip outcomes models)
                     ≡ₚ zip outcomes models).
  { apply as_completed_perm. rewrite length_zip_with_l_eq by assumption.
    rewrite Hlen. assumption. }
  destruct (collect_returns Model.eqb
              (as_completed completed (zip outcomes models)) [])
    as (added & Hcollect & Hkeys).
  - rewrite Hfutures, fst_zip by lia. assumption.
  - apply (pairwise_apart_perm Model.eqb models); [|assumption].
    rewrite Hfutures, snd_zip by lia. reflexivity.
  - constructor.
  - exists added. cbn in Hcollect.
    assert (Hk : dict_keys added ≡ₚ models).
    { rewrite Hkeys, Hfutures, snd_zip by lia. reflexivity. }
    split; [assumption|]. split; [assumption|].
    rewrite <- (length_map fst added). fold (dict_keys added).
    rewrite Hk. reflexivity.
Qed.

Lemma failure_discards_the_batch_witness :
  exists e,
    Raises e ∈ (run_all (chat_tasks Examples.models_abc
                           Examples.system_prompt Examples.question
                           0%float 2048) Examples.world_b_fails).1
    /\ (chat_completion_multiple [2; 0; 1]%nat Examples.models_abc
          Examples.system_prompt Examples.question 0%float 2048
          Examples.world_b_fails).1 = Raises e
    /\ forall model r,
         (Returns r, model)
         ∈ zip (run_all (chat_tasks Examples.models_abc
                           Examples.system_prompt Examples.question
                           0%float 2048) Examples.world_b_fails).1
               Examples.models_abc ->
         LLMResponse.model r = Model.id model
         /\ exists key,
              chat_request key (Model.id model) Examples.system_prompt
                           Examples.question 0%float 2048
              ∈ sent (chat_completion_multiple [2; 0; 1]%nat
                        Examples.models_abc Examples.system_prompt
                        Examples.question 0%float 2048
                        Examples.world_b_fails).2.
Proof.
  apply (failure_discards_the_batch [2; 0; 1]%nat Examples.models_abc
           Examples.system_prompt Examples.question 0%float 2048
           Examples.world_b_fails).
  - cbn. apply (Permutation_cons_app [0; 1]%nat [] 2%nat). reflexivity.
  - exists (HTTPError (Some (exception_text "b" Examples.error_500))
                      Examples.error_500).
    apply list_elem_of_lookup. exists 1%nat. reflexivity.
Defined.

(** C1, as stated, fails: of three models the calls for ["a"] and ["c"]
    succeed and the call for ["b"] fails, and the fan-out returns no mapping
    but raises the error of ["b"]. *)
Lemma one_failure_of_three_raises :
  map is_Returns
      (run_all (chat_tasks Examples.models_abc Examples.system_prompt
                  Examples.question 0%float 2048)
               Examples.world_b_fails).1
  = [true; false; true]
  /\ (chat_completion_multiple [0; 1; 2]%nat Examples.models_abc
        Examples.system_prompt Examples.question 0%float 2048
        Examples.world_b_fails).1
     = Raises (HTTPError (Some (exception_text "b" Examples.error_500))
                         Examples.error_500).
Proof. split; reflexivity. Qed.

Lemma all_succeed_one_entry_per_model_witness :
  exists results,
    (chat_completion_multiple [2; 0; 1]%nat Examples.models_abc
       Examples.system_prompt Examples.question 0%float 2048
       Examples.world_ok).1 = Returns results
    /\ dict_keys results ≡ₚ Examples.models_abc
    /\ length results = length Examples.models_abc.
Proof.
  apply (all_succeed_one_entry_per_model [2; 0; 1]%nat Examples.models_abc
           Examples.system_prompt Examples.question 0%float 2048
           Examples.world_ok).
  - cbn. apply (Permutation_cons_app [0; 1]%nat [] 2%nat). reflexivity.
  - repeat constructor.
  - unfold distinct_models, apart.
    repeat (constructor; [repeat constructor|]). constructor.
  - cbn. repeat constructor.
Defined.

(** C2, as stated, fails: for two distinct models one of whose calls times
    out, the fan-out returns no mapping at all, so no key set either. *)
Lemma timeout_of_one_leaves_no_mapping :
  Examples.models_ab <> []
  /\ distinct_models Examples.models_ab
  /\ (chat_completion_multiple [1; 0]%nat Examples.models_ab
        Examples.system_prompt Examples.question 0%float 2048
        Examples.world_b_times_out).1
     = Raises (TransportFailure ReadTimeout).
Proof.
  split; [discriminate|]. split; [|reflexivity].
  unfold distinct_models, apart.
  repeat (constructor; [repeat constructor|]). constructor.
Qed.

(** * Further properties of the code *)

(** ** The credential lookup *)

Lemma load_into_lookup env file k :
  load_into env file !! k
  = match last_binding k file with
    | Some v => Some v
    | None => env !! k
    end.
Proof.
  unfold last_binding.
  induction file as [|[k' v'] file IH] using rev_ind; [reflexivity|].
  rewrite load_into_snoc, rev_app_distr. cbn [rev app assoc].
  destruct (String.eqb_spec k k') as [->|Hne].
  - apply lookup_insert_eq.
  - rewrite lookup_insert_ne by congruence. exact IH.
Qed.

Lemma openai_key_precedence_aux (w : world) (c : Ascii.ascii) (k : string) :
  loaded_environ w !! "OPENAI_API_KEY" = Some (String c k) ->
  (_get_api_key w).1 = Returns (String c k).
Proof.
  intros H. rewrite get_api_key_spec. unfold resolve_key. rewrite H.
  reflexivity.
Qed.

(** X1: a non-empty [OPENAI_API_KEY] is the key, whatever
    [OPENROUTER_API_KEY] holds. *)
Theorem openai_key_takes_precedence (w : world) (c : Ascii.ascii)
    (k : string) :
  loaded_environ w !! "OPENAI_API_KEY" = Some (String c k) ->
  (_get_api_key w).1 = Returns (String c k).
Proof. apply openai_key_precedence_aux. Qed.

Lemma openai_key_takes_precedence_witness :
  (_get_api_key Examples.world_both_keys).1 = Returns "sk-oa-1".
Proof.
  exact (openai_key_takes_precedence Examples.world_both_keys
           "s"%char "k-oa-1" eq_refl).
Defined.

(** X2: when [OPENAI_API_KEY] is unset or empty, a non-empty
    [OPENROUTER_API_KEY] is the key. *)
Theorem openrouter_key_is_the_fallback (w : world) (c : Ascii.ascii)
    (k : string) :
  truthy (loaded_environ w !! "OPENAI_API_KEY") = false ->
  loaded_environ w !! "OPENROUTER_API_KEY" = Some (String c k) ->
  (_get_api_key w).1 = Returns (String c k).
Proof.
  intros H1 H2. rewrite get_api_key_spec. unfold resolve_key. rewrite H2.
  destruct (loaded_environ w !! "OPENAI_API_KEY") as [[|? ?]|];
    cbn in H1; try discriminate; reflexivity.
Qed.

Lemma openrouter_key_is_the_fallback_witness :
  (_get_api_key Examples.world_empty_openai_key).1 = Returns "sk-or-1".
Proof.
  exact (openrouter_key_is_the_fallback Examples.world_empty_openai_key
           "s"%char "k-or-1" eq_refl eq_refl).
Defined.

(** X3: without a non-empty key under either name, a chat call and a stats
    lookup raise [EnvironmentError] and send nothing. *)
Theorem no_key_no_request (w : world) (model prompt user_input : string)
    (temperature : float) (max_tokens : Z) (response : LLMResponse.t) :
  truthy (loaded_environ w !! "OPENAI_API_KEY") = false ->
  truthy (loaded_environ w !! "OPENROUTER_API_KEY") = false ->
  (chat_completion model prompt user_input temperature max_tokens w).1
  = Raises no_key
  /\ sent (chat_completion model prompt user_input temperature max_tokens
             w).2 = sent w
  /\ (cost_and_stats response w).1 = Raises no_key
  /\ sent (cost_and_stats response w).2 = sent w.
Proof.
  intros H1 H2.
  assert (Hkey : resolve_key (loaded_environ w) = None).
  { unfold resolve_key.
    destruct (loaded_environ w !! "OPENAI_API_KEY") as [[|? ?]|];
      destruct (loaded_environ w !! "OPENROUTER_API_KEY") as [[|? ?]|];
      cbn in H1, H2; try discriminate; reflexivity. }
  rewrite chat_completion_no_key, cost_and_stats_no_key by assumption.
  repeat split.
Qed.

Lemma no_key_no_request_witness :
  (chat_completion "a" Examples.system_prompt Examples.question 0%float 2048
     Examples.world_without_key).1 = Raises no_key
  /\ sent (chat_completion "a" Examples.system_prompt Examples.question
             0%float 2048 Examples.world_without_key).2
     = sent Examples.world_without_key
  /\ (cost_and_stats (Examples.response "gen-1")
        Examples.world_without_key).1 = Raises no_key
  /\ sent (cost_and_stats (Examples.response "gen-1")
             Examples.world_without_key).2
     = sent Examples.world_without_key.
Proof.
  exact (no_key_no_request Examples.world_without_key "a"
           Examples.system_prompt Examples.question 0%float 2048
           (Examples.response "gen-1") eq_refl eq_refl).
Defined.

(** X4: a non-empty [OPENAI_API_KEY] in the [.env] file that is loaded is the
    key, whatever the process environment held before the call. *)
Theorem dotenv_overrides_environment (w : world) (c : Ascii.ascii)
    (k : string) :
  last_binding "OPENAI_API_KEY" (chosen_dotenv w) = Some (String c k) ->
  (_get_api_key w).1 = Returns (String c k).
Proof.
  intros H. apply openai_key_precedence_aux.
  unfold loaded_environ. fold (chosen_dotenv w).
  rewrite load_into_lookup, H. reflexivity.
Qed.

Lemma dotenv_overrides_environment_witness :
  (_get_api_key Examples.world_file_openai).1 = Returns "sk-oa-3".
Proof.
  exact (dotenv_overrides_environment Examples.world_file_openai
           "s"%char "k-oa-3" eq_refl).
Defined.

Lemma reload_reload (w : world) : reload (reload w) = reload w.
Proof.
  unfold reload at 1. rewrite loaded_environ_reload. reflexivity.
Qed.

(** X5: when no value of the [.env] file that is loaded refers to a
    variable, looking the key up a second time returns what the first lookup
    returned and changes the environment no further. *)
Theorem get_api_key_twice (w : world) :
  no_references (chosen_dotenv w) ->
  _get_api_key (_get_api_key w).2 = _get_api_key w.
Proof.
  intros _. rewrite (get_api_key_spec w). cbn [snd].
  rewrite (get_api_key_spec (reload w)).
  rewrite loaded_environ_reload, reload_reload. reflexivity.
Qed.

Lemma get_api_key_twice_witness :
  no_references (chosen_dotenv Examples.world_file_openai)
  /\ _get_api_key (_get_api_key Examples.world_file_openai).2
     = _get_api_key Examples.world_file_openai.
Proof.
  assert (H : no_references (chosen_dotenv Examples.world_file_openai))
    by (repeat constructor).
  split; [exact H|].
  exact (get_api_key_twice Examples.world_file_openai H).
Defined.

(** X6: a key that [_get_api_key] returns is never the empty string. *)
Theorem api_key_not_empty (w : world) (key : string) :
  (_get_api_key w).1 = Returns key -> key <> "".
Proof.
  rewrite get_api_key_spec. unfold resolve_key. cbn [fst].
  destruct (loaded_environ w !! "OPENAI_API_KEY") as [[|? ?]|];
    destruct (loaded_environ w !! "OPENROUTER_API_KEY") as [[|? ?]|];
    intros H; inversion H; discriminate.
Qed.

Lemma api_key_not_empty_witness :
  (_get_api_key Examples.world_empty_openai_key).1 = Returns "sk-or-1"
  /\ "sk-or-1" <> "".
Proof.
  split; [reflexivity|].
  exact (api_key_not_empty Examples.world_empty_openai_key "sk-or-1"
           eq_refl).
Defined.

(** ** chat_completion *)

(** X7: a transport failure of the POST is not caught: it is raised to the
    caller once the request has gone out. *)
Theorem chat_transport_failure_propagates (w : world) (key : string)
    (model prompt user_input : string) (temperature : float) (max_tokens : Z)
    (t : transport_failure) :
  resolve_key (loaded_environ w) = Some key ->
  gateway w (sent w)
    (chat_request key model prompt user_input temperature max_tokens)
  = Failed t ->
  (chat_completion model prompt user_input temperature max_tokens w).1
  = Raises (TransportFailure t)
  /\ sent (chat_completion model prompt user_input temperature max_tokens
             w).2
     = (sent w
        ++ [chat_request key model prompt user_input temperature
              max_tokens])%list.
Proof.
  intros Hkey Hgw. split.
  - eapply chat_completion_transport; eassumption.
  - rewrite (chat_completion_world w key) by assumption. reflexivity.
Qed.

Lemma chat_transport_failure_propagates_witness :
  (chat_completion "b" Examples.system_prompt Examples.question 0%float 2048
     Examples.world_b_times_out).1
  = Raises (TransportFailure ReadTimeout)
  /\ sent (chat_completion "b" Examples.system_prompt Examples.question
             0%float 2048 Examples.world_b_times_out).2
     = (sent Examples.world_b_times_out
        ++ [chat_request "sk-or-1" "b" Examples.system_prompt
              Examples.question 0%float 2048])%list.
Proof.
  exact (chat_transport_failure_propagates Examples.world_b_times_out
           "sk-or-1" "b" Examples.system_prompt Examples.question 0%float
           2048 ReadTimeout eq_refl eq_refl).
Defined.

(** X8: a response that [chat_completion] returns comes from a 200 answer
    with a JSON object: its [id] is the ["id"] of that object, its [model],
    [prompt] and [user_input] are the arguments of the call, and it records
    the payload sent and the object received. *)
Theorem returned_response_records_the_call (w : world)
    (model prompt user_input : string) (temperature : float) (max_tokens : Z)
    (resp : LLMResponse.t) :
  (chat_completion model prompt user_input temperature max_tokens w).1
  = Returns resp ->
  exists key r d,
    resolve_key (loaded_environ w) = Some key
    /\ gateway w (sent w)
         (chat_request key model prompt user_input temperature max_tokens)
       = Responded r
    /\ status_code r = 200%Z
    /\ body r = Some (PDict d)
    /\ assoc "id" d = Some (LLMResponse.id resp)
    /\ LLMResponse.model resp = model
    /\ LLMResponse.prompt resp = prompt
    /\ LLMResponse.user_input resp = user_input
    /\ LLMResponse.raw_request resp
       = chat_payload model prompt user_input temperature max_tokens
    /\ LLMResponse.raw_response resp = PDict d
    /\ LLMResponse.elapsed_time resp = elapsed r.
Proof. apply chat_completion_returns. Qed.

Lemma returned_response_records_the_call_witness :
  exists key r d,
    resolve_key (loaded_environ Examples.world_ok) = Some key
    /\ gateway Examples.world_ok (sent Examples.world_ok)
         (chat_request key "a" Examples.system_prompt Examples.question
            0%float 2048)
       = Responded r
    /\ status_code r = 200%Z
    /\ body r = Some (PDict d)
    /\ assoc "id" d = Some (LLMResponse.id Examples.chat_response_a)
    /\ LLMResponse.model Examples.chat_response_a = "a"
    /\ LLMResponse.prompt Examples.chat_response_a = Examples.system_prompt
    /\ LLMResponse.user_input Examples.chat_response_a = Examples.question
    /\ LLMResponse.raw_request Examples.chat_response_a
       = chat_payload "a" Examples.system_prompt Examples.question 0%float
           2048
    /\ LLMResponse.raw_response Examples.chat_response_a = PDict d
    /\ LLMResponse.elapsed_time Examples.chat_response_a = elapsed r.
Proof.
  exact (returned_response_records_the_call Examples.world_ok "a"
           Examples.system_prompt Examples.question 0%float 2048
           Examples.chat_response_a eq_refl).
Defined.

(** X9: a [finish_reason] that the first choice carries is stored as it is,
    a JSON null included; the sentinel is for a missing key only. *)
Theorem finish_reason_is_passed_through (w : world) (key : string)
    (model prompt user_input : string) (temperature : float) (max_tokens : Z)
    (r : http_response) (d choice : list (string * pyval))
    (rest : list pyval) (id message content finish_reason : pyval) :
  resolve_key (loaded_environ w) = Some key ->
  gateway w (sent w)
    (chat_request key model prompt user_input temperature max_tokens)
  = Responded r ->
  status_code r = 200%Z ->
  body r = Some (PDict d) ->
  assoc "id" d = Some id ->
  assoc "choices" d = Some (PList (PDict choice :: rest)) ->
  assoc "message" choice = Some message ->
  getitem message "content" = Returns content ->
  assoc "finish_reason" choice = Some finish_reason ->
  (chat_completion model prompt user_input temperature max_tokens w).1
  = Returns (LLMResponse.mk id model prompt user_input content
               finish_reason
               (chat_payload model prompt user_input temperature max_tokens)
               (PDict d) (elapsed r)).
Proof.
  intros Hkey Hgw Hst Hbody Hid Hch Hmsg Hcontent Hfr.
  unfold chat_completion. run_with Hkey.
  fold (chat_request key model prompt user_input temperature max_tokens).
  rewrite Hgw. cbv beta iota. rewrite Hst. cbn [Z.eqb Pos.eqb negb].
  unfold lift, mret, M_ret, response_json. rewrite Hbody.
  cbn [getitem py_get]. rewrite Hid, Hch. cbn [getitem0 getitem py_get].
  rewrite Hmsg, Hcontent, Hfr. reflexivity.
Qed.

Lemma finish_reason_is_passed_through_witness :
  (chat_completion "a" Examples.system_prompt Examples.question 0%float 2048
     Examples.world_null_reason).1
  = Returns (LLMResponse.mk (PStr "gen-2") "a" Examples.system_prompt
               Examples.question (PStr "4") PNone
               (chat_payload "a" Examples.system_prompt Examples.question
                             0%float 2048)
               Examples.chat_body_null_reason 0.25%float).
Proof.
  exact (finish_reason_is_passed_through Examples.world_null_reason
           "sk-or-1" "a" Examples.system_prompt Examples.question 0%float
           2048
           (mk_http_response 200 "OK" (Some Examples.chat_body_null_reason)
                             0.25%float)
           _ _ _ (PStr "gen-2") _ (PStr "4") PNone
           eq_refl eq_refl eq_refl eq_refl eq_refl eq_refl eq_refl eq_refl
           eq_refl).
Defined.

(** X10: a 200 answer that is not what the gateway documents is a hard
    failure: a body that is not JSON raises [JSONDecodeError], an object
    without ["id"] raises [KeyError], an empty ["choices"] list raises
    [IndexError]. *)
Theorem malformed_chat_payload_raises (w : world) (key : string)
    (model prompt user_input : string) (temperature : float) (max_tokens : Z)
    (r : http_response) :
  resolve_key (loaded_environ w) = Some key ->
  gateway w (sent w)
    (chat_request key model prompt user_input temperature max_tokens)
  = Responded r ->
  status_code r = 200%Z ->
  (body r = None ->
   (chat_completion model prompt user_input temperature max_tokens w).1
   = Raises JSONDecodeError)
  /\ (forall d,
        body r = Some (PDict d) -> assoc "id" d = None ->
        (chat_completion model prompt user_input temperature max_tokens w).1
        = Raises (KeyError (PStr "id")))
  /\ (forall d id,
        body r = Some (PDict d) -> assoc "id" d = Some id ->
        assoc "choices" d = Some (PList []) ->
        (chat_completion model prompt user_input temperature max_tokens w).1
        = Raises IndexError).
Proof.
  intros Hkey Hgw Hst.
  unfold chat_completion. run_with Hkey.
  fold (chat_request key model prompt user_input temperature max_tokens).
  rewrite Hgw. cbv beta iota. rewrite Hst. cbn [Z.eqb Pos.eqb negb].
  unfold lift, mret, M_ret, response_json.
  split; [|split].
  - intros Hbody. rewrite Hbody. reflexivity.
  - intros d Hbody Hid. rewrite Hbody. cbn [getitem]. rewrite Hid.
    reflexivity.
  - intros d id Hbody Hid Hch. rewrite Hbody. cbn [getitem].
    rewrite Hid, Hch. reflexivity.
Qed.

Lemma malformed_chat_payload_raises_witness :
  (chat_completion "a" Examples.system_prompt Examples.question 0%float 2048
     Examples.world_no_id).1
  = Raises (KeyError (PStr "id")).
Proof.
  exact (proj1 (proj2
           (malformed_chat_payload_raises Examples.world_no_id "sk-or-1" "a"
              Examples.system_prompt Examples.question 0%float 2048
              (mk_http_response 200 "OK"
                 (Some (PDict [("choices", PList [])])) 0.25%float)
              eq_refl eq_refl eq_refl))
           [("choices", PList [])] eq_refl eq_refl).
Defined.

(** ** cost_and_stats *)

(** Runs [cost_and_stats] up to the answer of the gateway. *)
Ltac run_lookup Hkey Hgw key response :=
  unfold cost_and_stats; run_with Hkey;
  unfold try_except, raise_for_status, raise, lift, mret, M_ret;
  unfold mbind, M_bind, send;
  change (gateway (reload ?w)) with (gateway w);
  change (sent (reload ?w)) with (sent w);
  fold (stats_request key response);
  rewrite Hgw; cbv beta iota.

Lemma not_an_error_status (z : Z) :
  ~ (400 <= z < 600)%Z ->
  (z =? 404)%Z = false /\ ((400 <=? z)%Z && (z <? 600)%Z) = false.
Proof.
  intros H. split.
  - apply Z.eqb_neq. lia.
  - destruct (Z.leb_spec 400 z), (Z.ltb_spec z 600); cbn; try reflexivity.
    lia.
Qed.

(** X11: an answer that is no 4xx or 5xx and whose JSON object has the five
    counters under ["data"] gives stats that carry the id of the response,
    the counters as they are, the ["data"] object and the time taken. *)
Theorem cost_and_stats_returns_stats (w : world) (key : string)
    (response : LLMResponse.t) (r : http_response) (data : pyval)
    (p : list (string * pyval))
    (tokens_prompt tokens_completion native_tokens_prompt
       native_tokens_completion usage : pyval) :
  resolve_key (loaded_environ w) = Some key ->
  gateway w (sent w) (stats_request key response) = Responded r ->
  ~ (400 <= status_code r < 600)%Z ->
  body r = Some data ->
  getitem data "data" = Returns (PDict p) ->
  assoc "tokens_prompt" p = Some tokens_prompt ->
  assoc "tokens_completion" p = Some tokens_completion ->
  assoc "native_tokens_prompt" p = Some native_tokens_prompt ->
  assoc "native_tokens_completion" p = Some native_tokens_completion ->
  assoc "usage" p = Some usage ->
  (cost_and_stats response w).1
  = Returns (Some (LLMCostAndStats.mk (LLMResponse.id response)
                     tokens_prompt tokens_completion native_tokens_prompt
                     native_tokens_completion usage (PDict p) (elapsed r))).
Proof.
  intros Hkey Hgw Hst Hbody Hdata H1 H2 H3 H4 H5.
  apply not_an_error_status in Hst as [H404 Herr].
  run_lookup Hkey Hgw key response.
  rewrite H404, Herr. cbn. unfold response_json. rewrite Hbody, Hdata.
  cbn [getitem]. rewrite H1, H2, H3, H4, H5. reflexivity.
Qed.

Lemma cost_and_stats_returns_stats_witness :
  (cost_and_stats (Examples.response "gen-1") Examples.world_ok).1
  = Returns (Some (LLMCostAndStats.mk (PStr "gen-1")
                     (PInt 12) (PInt 3) (PInt 14) (PInt 4)
                     (PFloat 0.5%float)
                     (PDict [("tokens_prompt", PInt 12);
                             ("tokens_completion", PInt 3);
                             ("native_tokens_prompt", PInt 14);
                             ("native_tokens_completion", PInt 4);
                             ("usage", PFloat 0.5%float)])
                     0.25%float)).
Proof.
  refine (cost_and_stats_returns_stats Examples.world_ok "sk-or-1"
            (Examples.response "gen-1")
            (mk_http_response 200 "OK" (Some Examples.stats_body) 0.25%float)
            Examples.stats_body _ _ _ _ _ _
            eq_refl eq_refl _ eq_refl eq_refl eq_refl eq_refl eq_refl
            eq_refl eq_refl).
  cbn. lia.
Defined.

(** X12: an answer that is no 4xx or 5xx is read as JSON outside the [try]
    block: a body that is not JSON raises [JSONDecodeError] and an object
    without ["data"] raises [KeyError], neither of them turned into
    [None]. *)
Theorem lookup_payload_errors_propagate (w : world) (key : string)
    (response : LLMResponse.t) (r : http_response) :
  resolve_key (loaded_environ w) = Some key ->
  gateway w (sent w) (stats_request key response) = Responded r ->
  ~ (400 <= status_code r < 600)%Z ->
  (body r = None ->
   (cost_and_stats response w).1 = Raises JSONDecodeError)
  /\ (forall d,
        body r = Some (PDict d) -> assoc "data" d = None ->
        (cost_and_stats response w).1 = Raises (KeyError (PStr "data"))).
Proof.
  intros Hkey Hgw Hst.
  apply not_an_error_status in Hst as [H404 Herr].
  split.
  - intros Hbody. run_lookup Hkey Hgw key response.
    rewrite H404, Herr. cbn. unfold response_json. rewrite Hbody.
    reflexivity.
  - intros d Hbody Hd. run_lookup Hkey Hgw key response.
    rewrite H404, Herr. cbn. unfold response_json. rewrite Hbody.
    cbn [getitem]. rewrite Hd. reflexivity.
Qed.

Lemma lookup_payload_errors_propagate_witness :
  (cost_and_stats (Examples.response "gen-1") Examples.world_204).1
  = Raises JSONDecodeError.
Proof.
  refine (proj1 (lookup_payload_errors_propagate Examples.world_204
                   "sk-or-1" (Examples.response "gen-1")
                   (mk_http_response 204 "No Content" None 0.25%float)
                   eq_refl eq_refl _) eq_refl).
  cbn. lia.
Defined.

(** ** The collection loop *)

Lemma as_completed_nil {F} (completed : list nat) :
  as_completed completed ([] : list F) = [].
Proof.
  unfold as_completed. induction completed as [|i completed IH];
    [reflexivity|].
  cbn. exact IH.
Qed.

Lemma Forall_as_completed {F} (P : F -> Prop) (completed : list nat)
    (futures : list F) :
  Forall P futures -> Forall P (as_completed completed futures).
Proof.
  intros H. apply Forall_forall. intros x Hx.
  apply list_elem_of_omap in Hx as (i & _ & Hi).
  rewrite Forall_forall in H. apply H.
  apply list_elem_of_lookup. eauto.
Qed.

Section CollectInvariants.
Context {K V : Type} (eqb : K -> K -> bool).

(** The loop stops at the first future that holds an exception. *)
Lemma collect_first_raise (pre post : list (outcome V * K)) (e : exn)
    (k : K) (results : list (K * V)) :
  Forall (fun f => is_Returns f.1 = true) pre ->
  collect eqb (pre ++ (Raises e, k) :: post) results = Raises e.
Proof.
  revert results. induction pre as [|[o k'] pre IH]; intros results H.
  - reflexivity.
  - apply Forall_cons in H as [Ho H]. destruct o as [v|]; [|discriminate].
    cbn. apply IH. assumption.
Qed.


Lemma collect_returned (futures : list (outcome V * K))
    (results out : list (K * V)) :
  collect eqb futures results = Returns out ->
  Forall (fun f => is_Returns f.1 = true) futures.
Proof.
  revert results. induction futures as [|[o k] futures IH]; intros results H.
  - constructor.
  - destruct o as [v|]; [|discriminate].
    constructor; [reflexivity|]. eapply IH. exact H.
Qed.

(** Assigning to a key either replaces the value of an equal key or adds
    the key at the end. *)
Lemma dict_set_keys (k : K) (v : V) (d : list (K * V)) :
  (dict_keys (dict_set eqb k v d) = dict_keys d
   /\ Exists (fun k' => eqb k' k = true) (dict_keys d))
  \/ (dict_set eqb k v d = (d ++ [(k, v)])%list
      /\ Forall (fun k' => eqb k' k = false) (dict_keys d)).
Proof.
  induction d as [|[k' v'] d IH].
  - right. split; [reflexivity|constructor].
  - cbn [dict_set]. destruct (eqb k' k) eqn:E.
    + left. split; [reflexivity|]. cbn. apply Exists_cons. auto.
    + destruct IH as [[Hk Hex]|[Hs Hall]].
      * left. cbn. split; [f_equal; exact Hk|]. apply Exists_cons. auto.
      * right. rewrite Hs. split; [reflexivity|].
        cbn. constructor; assumption.
Qed.

Lemma unequal_keys_snoc (l : list K) (x : K) :
  unequal_keys eqb l ->
  Forall (fun y => eqb y x = false) l ->
  unequal_keys eqb (l ++ [x]).
Proof.
  unfold unequal_keys. induction 1 as [|a l Ha Hl IH]; intros Hx.
  - cbn. constructor; constructor.
  - apply Forall_cons in Hx as [Hax Hx]. cbn. constructor.
    + apply Forall_app. split; [assumption|]. constructor; [assumption|].
      constructor.
    + apply IH. assumption.
Qed.

Lemma dict_set_unequal_keys (k : K) (v : V) (d : list (K * V)) :
  unequal_keys eqb (dict_keys d) ->
  unequal_keys eqb (dict_keys (dict_set eqb k v d)).
Proof.
  intros H. destruct (dict_set_keys k v d) as [[Hk _]|[Hs Hall]].
  - rewrite Hk. assumption.
  - rewrite Hs. unfold dict_keys. rewrite map_app. cbn.
    apply unequal_keys_snoc; assumption.
Qed.

Lemma dict_set_key_from (k x : K) (v : V) (d : list (K * V)) :
  x ∈ dict_keys (dict_set eqb k v d) -> x ∈ dict_keys d \/ x = k.
Proof.
  destruct (dict_set_keys k v d) as [[Hk _]|[Hs _]].
  - rewrite Hk. auto.
  - rewrite Hs. unfold dict_keys. rewrite map_app. cbn.
    intros H. apply elem_of_app in H as [H|H]; [auto|].
    apply list_elem_of_singleton in H. auto.
Qed.

Lemma dict_set_keeps_keys (k x : K) (v : V) (d : list (K * V)) :
  x ∈ dict_keys d -> x ∈ dict_keys (dict_set eqb k v d).
Proof.
  intros Hx. destruct (dict_set_keys k v d) as [[Hk _]|[Hs _]].
  - rewrite Hk. assumption.
  - rewrite Hs. unfold dict_keys. rewrite map_app. apply elem_of_app. auto.
Qed.

(** The keys of the mapping that the loop returns are unequal to each other
    and come from the mapping it started with or from the futures. *)
Lemma collect_keys (futures : list (outcome V * K))
    (results out : list (K * V)) :
  collect eqb futures results = Returns out ->
  unequal_keys eqb (dict_keys results) ->
  unequal_keys eqb (dict_keys out)
  /\ forall x, x ∈ dict_keys out -> x ∈ dict_keys results \/ x ∈ futures.*2.
Proof.
  revert results. induction futures as [|[o k] futures IH];
    intros results H Hres.
  - cbn in H. inversion H; subst. auto.
  - destruct o as [v|]; [|discriminate]. cbn in H.
    destruct (IH _ H (dict_set_unequal_keys k v results Hres))
      as [Hout Hfrom].
    split; [assumption|]. intros x Hx.
    destruct (Hfrom x Hx) as [Hin|Hin].
    + apply dict_set_key_from in Hin as [Hin| ->]; [auto|].
      right. cbn. apply elem_of_cons. auto.
    + right. cbn. apply elem_of_cons. auto.
Qed.

Lemma dict_set_entries (P : K -> V -> Prop) (k : K) (v : V)
    (d : list (K * V)) :
  (forall k', eqb k' k = true -> P k' v) ->
  P k v ->
  Forall (fun e => P e.1 e.2) d ->
  Forall (fun e => P e.1 e.2) (dict_set eqb k v d).
Proof.
  intros Hequal Hk. induction 1 as [|[k' v'] d He Hd IH].
  - cbn. constructor; [assumption|constructor].
  - cbn [dict_set]. destruct (eqb k' k) eqn:E.
    + constructor; [|assumption]. cbn. apply Hequal. assumption.
    + constructor; assumption.
Qed.

(** A relation between key and value that holds for every future and that a
    key passes on to the keys equal to it holds for every entry of the
    mapping. *)
Lemma collect_entries (P : K -> V -> Prop)
    (futures : list (outcome V * K)) (results out : list (K * V)) :
  (forall k' k v, eqb k' k = true -> P k v -> P k' v) ->
  Forall (fun f => forall v, f.1 = Returns v -> P f.2 v) futures ->
  Forall (fun e => P e.1 e.2) results ->
  collect eqb futures results = Returns out ->
  Forall (fun e => P e.1 e.2) out.
Proof.
  intros Hequal. revert results.
  induction futures as [|[o k] futures IH]; intros results Hf Hres H.
  - cbn in H. inversion H; subst. assumption.
  - apply Forall_cons in Hf as [Ho Hf].
    destruct o as [v|]; [|discriminate]. cbn in H.
    eapply IH; [exact Hf| |exact H].
    apply dict_set_entries; [|auto|assumption].
    intros k' Hk'. eapply Hequal; [exact Hk'|]. auto.
Qed.
End CollectInvariants.

(** ** chat_completion_multiple *)

Lemma Model_eqb_id (a b : Model.t) :
  Model.eqb a b = true -> Model.id a = Model.id b.
Proof.
  unfold Model.eqb. rewrite !andb_true_iff, String.eqb_eq. tauto.
Qed.

(** Every future of the chat pool that holds a response holds one for the
    identifier of its model. *)
Lemma chat_tasks_outcomes (models : list Model.t) prompt user_input
    temperature max_tokens (w : world) :
  Forall (fun f : outcome LLMResponse.t * Model.t =>
            forall r, f.1 = Returns r -> LLMResponse.model r = Model.id f.2)
         (zip (run_all (chat_tasks models prompt user_input temperature
                          max_tokens) w).1
              models).
Proof.
  revert w. induction models as [|model rest IH]; intros w.
  - constructor.
  - cbn [chat_tasks map run_all].
    pose proof (chat_completion_returns w (Model.id model) prompt user_input
                  temperature max_tokens) as Hret.
    destruct (chat_completion _ _ _ _ _ w) as [o w1].
    fold (chat_tasks rest prompt user_input temperature max_tokens).
    specialize (IH w1). destruct (run_all _ w1) as [os w2].
    cbn in *. constructor; [|exact IH].
    cbn. intros r ->. destruct (Hret r eq_refl) as (? & ? & ? & H).
    tauto.
Qed.


(** X13: with no model, and with no response, the fan-outs return an empty
    mapping and leave the world as it is: nothing is sent and no key is
    looked up. *)
Theorem empty_fan_out (completed : list nat) (prompt user_input : string)
    (temperature : float) (max_tokens : Z) (w : world) :
  chat_completion_multiple completed [] prompt user_input temperature
    max_tokens w = (Returns [], w)
  /\ cost_and_stats_multiple completed [] w = (Returns [], w).
Proof.
  unfold chat_completion_multiple, cost_and_stats_multiple, mbind, M_bind.
  cbn. unfold lift. rewrite !as_completed_nil. split; reflexivity.
Qed.



(** X15: when several calls fail, the exception that the fan-out raises is
    that of the failed call whose future completes first. *)
Theorem first_completed_failure_is_raised (completed : list nat)
    (models : list Model.t) (prompt user_input : string)
    (temperature : float) (max_tokens : Z) (w : world)
    (pre post : list (outcome LLMResponse.t * Model.t)) (e : exn)
    (model : Model.t) :
  as_completed completed
    (zip (run_all (chat_tasks models prompt user_input temperature
                     max_tokens) w).1 models)
  = (pre ++ (Raises e, model) :: post)%list ->
  Forall (fun f => is_Returns f.1 = true) pre ->
  (chat_completion_multiple completed models prompt user_input temperature
     max_tokens w).1 = Raises e.
Proof.
  intros Hfutures Hpre. rewrite chat_completion_multiple_run. cbn [fst].
  rewrite Hfutures. apply collect_first_raise. assumption.
Qed.

(** X16: in the mapping that the fan-out returns, the response of every
    entry is the one asked for the identifier of the entry's model. *)
Theorem responses_belong_to_their_models (completed : list nat)
    (models : list Model.t) (prompt user_input : string)
    (temperature : float) (max_tokens : Z) (w : world)
    (results : list (Model.t * LLMResponse.t)) :
  (chat_completion_multiple completed models prompt user_input temperature
     max_tokens w).1 = Returns results ->
  Forall (fun entry => LLMResponse.model entry.2 = Model.id entry.1) results.
Proof.
  rewrite chat_completion_multiple_run. cbn [fst]. intros H.
  eapply (collect_entries Model.eqb
            (fun m r => LLMResponse.model r = Model.id m));
    [| |constructor|exact H].
  - intros k' k v Hk Hv. rewrite Hv. symmetry. apply Model_eqb_id.
    assumption.
  - apply Forall_as_completed. apply chat_tasks_outcomes.
Qed.

Lemma responses_belong_to_their_models_witness :
  Forall (fun entry => LLMResponse.model entry.2 = Model.id entry.1)
         (Examples.returned
            (chat_completion_multiple [2; 0; 1]%nat Examples.models_abc
               Examples.system_prompt Examples.question 0%float 2048
               Examples.world_ok).1).
Proof.
  apply (responses_belong_to_their_models [2; 0; 1]%nat Examples.models_abc
           Examples.system_prompt Examples.question 0%float 2048
           Examples.world_ok).
  reflexivity.
Defined.

Section CollectRepresents.
Context {K V : Type} (eqb : K -> K -> bool).

Lemma dict_set_represents (k : K) (v : V) (d : list (K * V)) :
  eqb k k = true ->
  exists k', k' ∈ dict_keys (dict_set eqb k v d) /\ eqb k' k = true.
Proof.
  intros Hk. destruct (dict_set_keys eqb k v d) as [[Hkeys Hex]|[Hs _]].
  - apply Exists_exists in Hex as (k' & Hin & Heq).
    exists k'. rewrite Hkeys. auto.
  - exists k. split; [|exact Hk]. rewrite Hs. unfold dict_keys.
    rewrite map_app. apply elem_of_app. right. cbn.
    apply list_elem_of_singleton. reflexivity.
Qed.

Lemma collect_keeps_keys (futures : list (outcome V * K))
    (results out : list (K * V)) (x : K) :
  collect eqb futures results = Returns out ->
  x ∈ dict_keys results -> x ∈ dict_keys out.
Proof.
  revert results. induction futures as [|[o k] futures IH];
    intros results H Hx.
  - cbn in H. inversion H; subst. exact Hx.
  - destruct o as [v|]; [|discriminate]. cbn in H.
    eapply IH; [exact H|]. apply dict_set_keeps_keys. exact Hx.
Qed.

(** Every key that the loop meets is equal to a key of the mapping that it
    returns, when the key equals itself. *)
Lemma collect_represents (futures : list (outcome V * K))
    (results out : list (K * V)) :
  collect eqb futures results = Returns out ->
  forall k, k ∈ futures.*2 -> eqb k k = true ->
            exists k', k' ∈ dict_keys out /\ eqb k' k = true.
Proof.
  revert results. induction futures as [|[o k0] futures IH];
    intros results H k Hk Hrefl.
  - cbn in Hk. apply elem_of_nil in Hk. contradiction.
  - destruct o as [v|]; [|discriminate]. cbn in H, Hk.
    apply elem_of_cons in Hk as [->|Hk].
    + destruct (dict_set_represents k0 v results Hrefl) as (k' & Hin & Heq).
      exists k'. split; [|exact Heq].
      eapply collect_keeps_keys; [exact H|exact Hin].
    + eapply IH; eassumption.
Qed.
End CollectRepresents.

(** With every call answered, the log has grown by one request per model. *)
Lemma chat_tasks_log_length (models : list Model.t) prompt user_input
    temperature max_tokens (w : world) :
  Forall (fun o => is_Returns o = true)
         (run_all (chat_tasks models prompt user_input temperature
                     max_tokens) w).1 ->
  length (sent (run_all (chat_tasks models prompt user_input temperature
                           max_tokens) w).2)
  = (length (sent w) + length models)%nat.
Proof.
  revert w. induction models as [|model rest IH]; intros w Hok.
  - cbn. lia.
  - cbn [chat_tasks map run_all] in *.
    pose proof (chat_completion_returns w (Model.id model) prompt user_input
                  temperature max_tokens) as Hret.
    pose proof (fun key => chat_completion_world w key (Model.id model)
                  prompt user_input temperature max_tokens) as Hworld.
    destruct (chat_completion _ _ _ _ _ w) as [o w1].
    fold (chat_tasks rest prompt user_input temperature max_tokens) in *.
    specialize (IH w1). destruct (run_all _ w1) as [os w2].
    cbn [fst snd] in *. apply Forall_cons in Hok as [Ho Hok].
    destruct o as [r|]; [|discriminate].
    destruct (Hret r eq_refl) as (key & ? & ? & Hkey & _).
    specialize (Hworld key Hkey). cbn in Hworld. subst w1. rewrite IH by assumption.
    cbn. rewrite length_app. cbn. lia.
Qed.

(** X17: in a mapping that the fan-out returns for models without a NaN
    price, the keys are input models, no key equals a later one, and every
    input model has a key equal to it; one call per input model has been
    made.  So a model that is passed twice is called twice and has one
    entry. *)
Theorem mapping_keys_are_unequal_models (completed : list nat)
    (models : list Model.t) (prompt user_input : string)
    (temperature : float) (max_tokens : Z) (w : world)
    (results : list (Model.t * LLMResponse.t)) :
  completed ≡ₚ seq 0 (length models) ->
  Forall self_equal models ->
  (chat_completion_multiple completed models prompt user_input temperature
     max_tokens w).1 = Returns results ->
  unequal_keys Model.eqb (dict_keys results)
  /\ (forall model, model ∈ dict_keys results -> model ∈ models)
  /\ (forall model,
        model ∈ models ->
        exists k, k ∈ dict_keys results /\ Model.eqb k model = true)
  /\ length (sent (chat_completion_multiple completed models prompt
                     user_input temperature max_tokens w).2)
     = (length (sent w) + length models)%nat.
Proof.
  intros Hperm Hself. rewrite chat_completion_multiple_run. cbn [fst snd].
  pose proof (chat_tasks_length models prompt user_input temperature
                max_tokens w) as Hlen.
  pose proof (chat_tasks_log_length models prompt user_input temperature
                max_tokens w) as Hlog.
  set (outcomes := (run_all _ w).1) in *.
  assert (Hfutures : as_completed completed (zip outcomes models)
                     ≡ₚ zip outcomes models).
  { apply as_completed_perm. rewrite length_zip_with_l_eq by assumption.
    rewrite Hlen. assumption. }
  intros H.
  destruct (collect_keys Model.eqb _ _ _ H) as [Hkeys Hfrom];
    [constructor|].
  split; [assumption|]. split; [|split].
  - intros model Hin. destruct (Hfrom model Hin) as [Hnil|Hf].
    + cbn in Hnil. apply elem_of_nil in Hnil. contradiction.
    + rewrite Hfutures, snd_zip in Hf by lia. exact Hf.
  - intros model Hin.
    apply (collect_represents Model.eqb _ _ _ H).
    + rewrite Hfutures, snd_zip by lia. exact Hin.
    + rewrite Forall_forall in Hself. apply Hself. exact Hin.
  - apply Hlog. apply collect_returned in H.
    assert (Hall : Forall (fun f : outcome LLMResponse.t * Model.t =>
                             is_Returns f.1 = true)
                          (zip outcomes models)).
    { rewrite <- Hfutures. exact H. }
    rewrite <- (fst_zip outcomes models) by lia.
    apply Forall_fmap. exact Hall.
Qed.

Lemma mapping_keys_are_unequal_models_witness :
  (unequal_keys Model.eqb
     (dict_keys
        (Examples.returned
           (chat_completion_multiple [1; 0]%nat Examples.models_aa
              Examples.system_prompt Examples.question 0%float 2048
              Examples.world_ok).1))
   /\ (forall model,
         model ∈ dict_keys
                   (Examples.returned
                      (chat_completion_multiple [1; 0]%nat
                         Examples.models_aa Examples.system_prompt
                         Examples.question 0%float 2048
                         Examples.world_ok).1) ->
         model ∈ Examples.models_aa)
   /\ (forall model,
         model ∈ Examples.models_aa ->
         exists k,
           k ∈ dict_keys
                 (Examples.returned
                    (chat_completion_multiple [1; 0]%nat
                       Examples.models_aa Examples.system_prompt
                       Examples.question 0%float 2048
                       Examples.world_ok).1)
           /\ Model.eqb k model = true)
   /\ length (sent (chat_completion_multiple [1; 0]%nat Examples.models_aa
                      Examples.system_prompt Examples.question 0%float 2048
                      Examples.world_ok).2)
      = (length (sent Examples.world_ok) + length Examples.models_aa)%nat)
  /\ length (Examples.returned
               (chat_completion_multiple [1; 0]%nat Examples.models_aa
                  Examples.system_prompt Examples.question 0%float 2048
                  Examples.world_ok).1) = 1%nat
  /\ length (sent (chat_completion_multiple [1; 0]%nat Examples.models_aa
                     Examples.system_prompt Examples.question 0%float 2048
                     Examples.world_ok).2) = 2%nat.
Proof.
  split; [|split; reflexivity].
  apply (mapping_keys_are_unequal_models [1; 0]%nat Examples.models_aa
           Examples.system_prompt Examples.question 0%float 2048
           Examples.world_ok).
  - cbn. apply perm_swap.
  - repeat constructor.
  - reflexivity.
Defined.

Lemma first_completed_failure_is_raised_witness :
  (chat_completion_multiple [0; 2; 1]%nat Examples.models_abc
     Examples.system_prompt Examples.question 0%float 2048
     Examples.world_b_and_c_fail).1
  = Raises (TransportFailure ReadTimeout).
Proof.
  apply (first_completed_failure_is_raised [0; 2; 1]%nat Examples.models_abc
           Examples.system_prompt Examples.question 0%float 2048
           Examples.world_b_and_c_fail
           (take 1
              (as_completed [0; 2; 1]%nat
                 (zip (run_all (chat_tasks Examples.models_abc
                                  Examples.system_prompt Examples.question
                                  0%float 2048)
                               Examples.world_b_and_c_fail).1
                      Examples.models_abc)))
           (drop 2
              (as_completed [0; 2; 1]%nat
                 (zip (run_all (chat_tasks Examples.models_abc
                                  Examples.system_prompt Examples.question
                                  0%float 2048)
                               Examples.world_b_and_c_fail).1
                      Examples.models_abc)))
           (TransportFailure ReadTimeout)
           (Examples.model "c" "C" 0.125%float)).
  - reflexivity.
  - cbn. repeat constructor.
Defined.

(** ** cost_and_stats_multiple and get_cost_and_stats *)

Lemma cost_and_stats_multiple_run (completed : list nat)
    (llm_responses : list (Model.t * LLMResponse.t)) (w : world) :
  cost_and_stats_multiple completed llm_responses w
  = (collect Model.eqb
       (as_completed completed
          (zip (run_all (stats_tasks llm_responses) w).1
               (map fst llm_responses)))
       [],
     (run_all (stats_tasks llm_responses) w).2).
Proof.
  unfold cost_and_stats_multiple, mbind, M_bind.
  fold (stats_tasks llm_responses).
  rewrite submit_all_run. reflexivity.
Qed.

Lemma get_cost_and_stats_run (completed : list nat)
    (response : list (Model.t * LLMResponse.t)) (w : world) :
  (get_cost_and_stats completed response w).1
  = match (cost_and_stats_multiple completed response w).1 with
    | Returns results => Returns (omap with_stats results)
    | Raises e => Raises e
    end.
Proof.
  unfold get_cost_and_stats, mbind, M_bind.
  destruct (cost_and_stats_multiple completed response w) as [[results|e] w'];
    reflexivity.
Qed.

Lemma stats_tasks_length (llm_responses : list (Model.t * LLMResponse.t))
    (w : world) :
  length (run_all (stats_tasks llm_responses) w).1
  = length (map fst llm_responses).
Proof.
  rewrite run_all_length. unfold stats_tasks. rewrite !length_map.
  reflexivity.
Qed.

(** Every future of the stats pool sits beside the model of a response, and
    the stats it holds carry the id of that response. *)
Lemma stats_tasks_outcomes (llm_responses : list (Model.t * LLMResponse.t))
    (w : world) :
  Forall (fun f : outcome (option LLMCostAndStats.t) * Model.t =>
            exists r, (f.2, r) ∈ llm_responses
                      /\ forall s, f.1 = Returns (Some s) ->
                                   LLMCostAndStats.id s = LLMResponse.id r)
         (zip (run_all (stats_tasks llm_responses) w).1
              (map fst llm_responses)).
Proof.
  revert w. induction llm_responses as [|[m r] rest IH]; intros w.
  - constructor.
  - cbn [stats_tasks map run_all fst snd].
    pose proof (cost_and_stats_id w r) as Hid.
    destruct (cost_and_stats r w) as [o w1].
    fold (stats_tasks rest).
    specialize (IH w1). destruct (run_all _ w1) as [os w2].
    cbn in *. constructor.
    + exists r. split; [apply elem_of_cons; auto|].
      cbn. intros s ->. apply Hid. reflexivity.
    + eapply Forall_impl; [exact IH|].
      cbn. intros f (r' & Hin & Hs). exists r'.
      split; [apply elem_of_cons; auto|assumption].
Qed.

Section CollectEntries.
Context {K V : Type} (eqb : K -> K -> bool).

(** For keys that are pairwise apart, the mapping that the loop returns has
    exactly the entries of the futures, in the order of completion. *)
Lemma collect_returns_entries (futures : list (outcome V * K))
    (results out : list (K * V)) :
  collect eqb futures results = Returns out ->
  ForallOrdPairs (apart eqb) futures.*2 ->
  Forall (fun k' => Forall (fun k => eqb k' k = false) futures.*2)
         (dict_keys results) ->
  out = (results ++ omap entry_of futures)%list.
Proof.
  revert results.
  induction futures as [|[o k] rest IH]; intros results H Hfop Hold.
  - cbn in H. inversion H; subst. rewrite app_nil_r. reflexivity.
  - destruct o as [v|]; [|discriminate]. cbn in H.
    cbn in Hfop. inversion Hfop as [|? ? Hk Hrest]; subst.
    rewrite dict_set_fresh in H.
    + rewrite (IH _ H Hrest).
      * rewrite <- app_assoc. reflexivity.
      * unfold dict_keys. rewrite map_app. apply Forall_app. split.
        -- eapply Forall_impl; [exact Hold|].
           cbn. intros k' Hk'. apply Forall_cons in Hk'. tauto.
        -- cbn. constructor; [|constructor].
           eapply Forall_impl; [exact Hk|].
           intros x Hx. exact (proj1 Hx).
    + eapply Forall_impl; [exact Hold|].
      cbn. intros k' Hk'. apply Forall_cons in Hk'. tauto.
Qed.
End CollectEntries.

Lemma stats_futures_perm (completed : list nat)
    (llm_responses : list (Model.t * LLMResponse.t)) (w : world) :
  completed ≡ₚ seq 0 (length llm_responses) ->
  as_completed completed
    (zip (run_all (stats_tasks llm_responses) w).1 (map fst llm_responses))
  ≡ₚ zip (run_all (stats_tasks llm_responses) w).1 (map fst llm_responses).
Proof.
  intros Hperm. apply as_completed_perm.
  rewrite length_zip_with_l_eq by apply stats_tasks_length.
  rewrite stats_tasks_length, length_map. assumption.
Qed.

Lemma stats_mapping_spec (completed : list nat)
    (llm_responses : list (Model.t * LLMResponse.t)) (w : world)
    (results : list (Model.t * option LLMCostAndStats.t)) :
  completed ≡ₚ seq 0 (length llm_responses) ->
  distinct_models (map fst llm_responses) ->
  (cost_and_stats_multiple completed llm_responses w).1 = Returns results ->
  dict_keys results ≡ₚ map fst llm_responses
  /\ Forall (fun entry =>
               exists r, (entry.1, r) ∈ llm_responses
                         /\ forall s, entry.2 = Some s ->
                                      LLMCostAndStats.id s
                                      = LLMResponse.id r)
            results.
Proof.
  intros Hperm Hdistinct. rewrite cost_and_stats_multiple_run. cbn [fst].
  pose proof (stats_futures_perm completed llm_responses w Hperm)
    as Hfutures.
  pose proof (stats_tasks_length llm_responses w) as Hlen.
  pose proof (Forall_as_completed _ completed _
                (stats_tasks_outcomes llm_responses w)) as Hout.
  set (futures := as_completed completed _) in *.
  intros H.
  pose proof (collect_returned Model.eqb _ _ _ H) as Hret.
  assert (Hkeys : futures.*2 ≡ₚ map fst llm_responses).
  { rewrite Hfutures, snd_zip by lia. reflexivity. }
  apply collect_returns_entries in H; [|
    apply (pairwise_apart_perm Model.eqb (map fst llm_responses));
      [symmetry; exact Hkeys|exact Hdistinct] | constructor ].
  cbn in H. subst results. clear Hfutures Hlen. split.
  - rewrite <- Hkeys. clear Hkeys Hout.
    induction futures as [|[o k] futures IH]; [reflexivity|].
    apply Forall_cons in Hret as [Ho Hret].
    destruct o as [v|]; [|discriminate]. cbn. constructor. apply IH.
    assumption.
  - clear Hkeys Hret.
    induction futures as [|[o k] futures IH]; [constructor|].
    apply Forall_cons in Hout as [Ho Hout].
    destruct o as [v|]; cbn; [|apply IH; assumption].
    constructor; [|apply IH; assumption].
    destruct Ho as (r & Hin & Hs). exists r. split; [exact Hin|].
    cbn. intros s ->. apply Hs. reflexivity.
Qed.

(** X18: for responses of pairwise distinct models, the mapping that the
    stats fan-out returns has one entry per model, the ones whose lookup
    gave [None] included, and stats in an entry carry the id of the response
    of the entry's model. *)
Theorem stats_mapping_has_every_model (completed : list nat)
    (llm_responses : list (Model.t * LLMResponse.t)) (w : world)
    (results : list (Model.t * option LLMCostAndStats.t)) :
  completed ≡ₚ seq 0 (length llm_responses) ->
  distinct_models (map fst llm_responses) ->
  (cost_and_stats_multiple completed llm_responses w).1 = Returns results ->
  dict_keys results ≡ₚ map fst llm_responses
  /\ Forall (fun entry =>
               exists r, (entry.1, r) ∈ llm_responses
                         /\ forall s, entry.2 = Some s ->
                                      LLMCostAndStats.id s
                                      = LLMResponse.id r)
            results.
Proof. apply stats_mapping_spec. Qed.

Lemma stats_mapping_has_every_model_witness :
  dict_keys
    (Examples.returned
       (cost_and_stats_multiple [2; 0; 1]%nat Examples.responses_abc
          Examples.world_stats_for_b).1)
  ≡ₚ map fst Examples.responses_abc
  /\ Forall (fun entry =>
               exists r, (entry.1, r) ∈ Examples.responses_abc
                         /\ forall s, entry.2 = Some s ->
                                      LLMCostAndStats.id s
                                      = LLMResponse.id r)
            (Examples.returned
               (cost_and_stats_multiple [2; 0; 1]%nat Examples.responses_abc
                  Examples.world_stats_for_b).1).
Proof.
  apply (stats_mapping_has_every_model [2; 0; 1]%nat Examples.responses_abc
           Examples.world_stats_for_b).
  - cbn. apply (Permutation_cons_app [0; 1]%nat [] 2%nat). reflexivity.
  - unfold distinct_models, apart.
    repeat (constructor; [repeat constructor|]). constructor.
  - reflexivity.
Defined.




(** X20: for responses of pairwise distinct models, every entry that
    [get_cost_and_stats] returns belongs to a model that has a response, and
    its stats carry the id of that response. *)
Theorem kept_stats_match_their_responses (completed : list nat)
    (response : list (Model.t * LLMResponse.t)) (w : world)
    (stats : list (Model.t * LLMCostAndStats.t)) :
  completed ≡ₚ seq 0 (length response) ->
  distinct_models (map fst response) ->
  (get_cost_and_stats completed response w).1 = Returns stats ->
  Forall (fun entry =>
            exists r, (entry.1, r) ∈ response
                      /\ LLMCostAndStats.id entry.2 = LLMResponse.id r)
         stats.
Proof.
  intros Hperm Hdistinct. rewrite get_cost_and_stats_run.
  destruct (cost_and_stats_multiple completed response w).1
    as [results|e] eqn:Hres; [|discriminate].
  destruct (stats_mapping_spec completed response w results Hperm Hdistinct
              Hres) as [_ Hentries].
  intros H. inversion H; subst. clear H Hres.
  induction Hentries as [|[m v] results (r & Hin & Hs) _ IH];
    [constructor|].
  destruct v as [s|]; cbn; [|exact IH].
  constructor; [|exact IH].
  exists r. split; [exact Hin|]. apply Hs. reflexivity.
Qed.

Lemma kept_stats_match_their_responses_witness :
  Forall (fun entry =>
            exists r, (entry.1, r) ∈ Examples.responses_abc
                      /\ LLMCostAndStats.id entry.2 = LLMResponse.id r)
         (Examples.returned
            (get_cost_and_stats [2; 0; 1]%nat Examples.responses_abc
               Examples.world_stats_for_b).1)
  /\ length (Examples.returned
               (get_cost_and_stats [2; 0; 1]%nat Examples.responses_abc
                  Examples.world_stats_for_b).1) = 1%nat.
Proof.
  split; [|reflexivity].
  apply (kept_stats_match_their_responses [2; 0; 1]%nat
           Examples.responses_abc Examples.world_stats_for_b).
  - cbn. apply (Permutation_cons_app [0; 1]%nat [] 2%nat). reflexivity.
  - unfold distinct_models, apart.
    repeat (constructor; [repeat constructor|]). constructor.
  - reflexivity.
Defined.

(** X21: a lookup that raises is not isolated: when the lookup of one
    response raises, the stats fan-out and [get_cost_and_stats] raise the
    exception of a lookup that raised, and no stats are returned. *)
Theorem raising_lookup_aborts_the_stats (completed : list nat)
    (llm_responses : list (Model.t * LLMResponse.t)) (w : world) :
  completed ≡ₚ seq 0 (length llm_responses) ->
  (exists e, Raises e ∈ (run_all (stats_tasks llm_responses) w).1) ->
  exists e,
    Raises e ∈ (run_all (stats_tasks llm_responses) w).1
    /\ (cost_and_stats_multiple completed llm_responses w).1 = Raises e
    /\ (get_cost_and_stats completed llm_responses w).1 = Raises e.
Proof.
  intros Hperm Hfail. rewrite get_cost_and_stats_run.
  rewrite cost_and_stats_multiple_run. cbn [fst].
  pose proof (stats_futures_perm completed llm_responses w Hperm)
    as Hfutures.
  pose proof (stats_tasks_length llm_responses w) as Hlen.
  set (outcomes := (run_all _ w).1) in *.
  destruct (collect_raises Model.eqb
              (as_completed completed
                 (zip outcomes (map fst llm_responses))) [])
    as (e & Hin & Hcollect).
  { destruct Hfail as [e He]. exists e.
    rewrite Hfutures, fst_zip by lia. assumption. }
  exists e. rewrite Hcollect. split; [|split; reflexivity].
  rewrite Hfutures, fst_zip in Hin by lia. assumption.
Qed.

Lemma raising_lookup_aborts_the_stats_witness :
  exists e,
    Raises e ∈ (run_all (stats_tasks Examples.responses_abc)
                        Examples.world_bad_stats_for_b).1
    /\ (cost_and_stats_multiple [2; 0; 1]%nat Examples.responses_abc
          Examples.world_bad_stats_for_b).1 = Raises e
    /\ (get_cost_and_stats [2; 0; 1]%nat Examples.responses_abc
          Examples.world_bad_stats_for_b).1 = Raises e.
Proof.
  apply (raising_lookup_aborts_the_stats [2; 0; 1]%nat
           Examples.responses_abc Examples.world_bad_stats_for_b).
  - cbn. apply (Permutation_cons_app [0; 1]%nat [] 2%nat). reflexivity.
  - exists (KeyError (PStr "data")).
    apply list_elem_of_lookup. exists 1%nat. reflexivity.
Defined.

(** ** The catalog *)

Section CatalogProperties.
Variable float_of_str : string -> option float.
Variable float_of_int : Z -> option float.

(** Splits the goal along every subscript and conversion of the loop body. *)
Ltac split_item :=
  repeat match goal with
  | |- context [match getitem ?v ?k with Returns _ => _ | Raises _ => _ end]
    => destruct (getitem v k) eqn:?
  | |- context [match py_float _ _ ?v with Built _ => _ | Threw _ => _ end]
    => destruct (py_float float_of_str float_of_int v) eqn:?
  end.

(** What a model that the loop body builds holds. *)
Lemma model_of_item_built (item : pyval) (m : CatalogModel.t) :
  model_of_item float_of_str float_of_int item = Built m ->
  CatalogModel.max_completion_tokens m <> PNone
  /\ getitem item "id" = Returns (CatalogModel.id m)
  /\ getitem item "name" = Returns (CatalogModel.name m)
  /\ getitem item "context_length"
     = Returns (CatalogModel.context_length m)
  /\ exists top_provider tokens,
       getitem item "top_provider" = Returns top_provider
       /\ getitem top_provider "max_completion_tokens" = Returns tokens
       /\ CatalogModel.max_completion_tokens m
          = match tokens with PNone => PInt 0 | _ => tokens end.
Proof.
  unfold model_of_item, built_bind, of_outcome.
  split_item; try discriminate.
  intros H. inversion H; subst; clear H. cbn.
  split; [|split; [reflexivity|split; [reflexivity|split; [reflexivity|]]]].
  - match goal with |- match ?t with _ => _ end <> _ => destruct t end;
      discriminate.
  - eexists. eexists. split; [reflexivity|]. split; [eassumption|reflexivity].
Qed.

Lemma models_of_items_built (items : list pyval)
    (models : list CatalogModel.t) :
  models_of_items float_of_str float_of_int items = Built models ->
  Forall2 (fun item m =>
             model_of_item float_of_str float_of_int item = Built m)
          items models.
Proof.
  revert models. induction items as [|item rest IH]; intros models H.
  - cbn in H. inversion H; subst. constructor.
  - cbn in H. unfold built_bind in H.
    destruct (model_of_item _ _ item) as [m|] eqn:Hm; [|discriminate].
    destruct (models_of_items _ _ rest) as [ms|]; [|discriminate].
    inversion H; subst. constructor; [assumption|]. apply IH. reflexivity.
Qed.

Lemma available_models_list_built (w : world)
    (models : list CatalogModel.t) :
  (available_models_list float_of_str float_of_int w).1 = Built models ->
  exists payload items,
    (available_models w).1 = Returns payload
    /\ py_iter payload = Returns items
    /\ models_of_items float_of_str float_of_int items = Built models.
Proof.
  unfold available_models_list.
  destruct (available_models w) as [[payload|e] w']; [|discriminate].
  cbn. unfold built_bind, of_outcome.
  destruct (py_iter payload) as [items|] eqn:Hiter; [|discriminate].
  intros H. exists payload, items. auto.
Qed.

(** X22: a null [max_completion_tokens] in the payload becomes 0 in the
    model and any other value is kept: when the ["data"] of the catalog
    payload is a list, every model has the value of its item, 0 standing
    for null, so that no model of the catalog has a null there. *)
Theorem catalog_max_completion_tokens_never_null (w : world)
    (items : list pyval) (models : list CatalogModel.t) :
  (available_models w).1 = Returns (PList items) ->
  (available_models_list float_of_str float_of_int w).1 = Built models ->
  Forall2 (fun item m =>
             exists top_provider tokens,
               getitem item "top_provider" = Returns top_provider
               /\ getitem top_provider "max_completion_tokens"
                  = Returns tokens
               /\ CatalogModel.max_completion_tokens m
                  = match tokens with PNone => PInt 0 | _ => tokens end)
          items models
  /\ Forall (fun m => CatalogModel.max_completion_tokens m <> PNone) models.
Proof.
  intros Hpayload H.
  apply available_models_list_built in H as (payload & items' & Hp & Hi & H).
  rewrite Hpayload in Hp. inversion Hp; subst payload.
  cbn in Hi. inversion Hi; subst items'.
  apply models_of_items_built in H. clear Hpayload Hp Hi.
  induction H as [|item m items models Hm _ [IH1 IH2]];
    [split; constructor|].
  apply model_of_item_built in Hm as (Hnull & _ & _ & _ & Htokens).
  split; constructor; assumption.
Qed.

(** X23: when the ["data"] of the catalog payload is a list, the catalog has
    one model per item, in the order of the items, and each model has the
    ["id"], the ["name"] and the ["context_length"] of its item. *)
Theorem catalog_has_one_model_per_item (w : world) (items : list pyval)
    (models : list CatalogModel.t) :
  (available_models w).1 = Returns (PList items) ->
  (available_models_list float_of_str float_of_int w).1 = Built models ->
  Forall2 (fun item m =>
             getitem item "id" = Returns (CatalogModel.id m)
             /\ getitem item "name" = Returns (CatalogModel.name m)
             /\ getitem item "context_length"
                = Returns (CatalogModel.context_length m))
          items models.
Proof.
  intros Hpayload H.
  apply available_models_list_built in H as (payload & items' & Hp & Hi & H).
  rewrite Hpayload in Hp. inversion Hp; subst payload.
  cbn in Hi. inversion Hi; subst items'.
  apply models_of_items_built in H. clear Hpayload Hp Hi.
  induction H as [|item m items models Hm _ IH]; [constructor|].
  constructor; [|exact IH].
  apply model_of_item_built in Hm. tauto.
Qed.

(** X24: the catalog is fetched without a key, and an error of its request
    is raised to the caller: a 4xx or 5xx answer as [HTTPError], a transport
    failure as it is. *)
Theorem catalog_request_errors_propagate (w : world) :
  match gateway w (sent w) models_request with
  | Failed t =>
      (available_models_list float_of_str float_of_int w).1
      = Threw (Exn (TransportFailure t))
  | Responded r =>
      (400 <= status_code r < 600)%Z ->
      (available_models_list float_of_str float_of_int w).1
      = Threw (Exn (HTTPError None r))
  end.
Proof.
  unfold available_models_list, available_models, requests_get.
  unfold raise_for_status, raise, lift, mbind, M_bind, mret, M_ret, send.
  fold models_request.
  destruct (gateway w (sent w) models_request) as [r|t]; [|reflexivity].
  intros Hst. cbv beta iota.
  replace ((400 <=? status_code r)%Z && (status_code r <? 600)%Z) with true;
    [reflexivity|].
  symmetry. apply andb_true_intro. split; [apply Z.leb_le|apply Z.ltb_lt]; lia.
Qed.

(** X25: an item that lacks a key fails the whole catalog: the exception of
    the first item without ["pricing"] is raised, and the models built from
    the items before it are lost. *)
Theorem one_bad_item_fails_the_catalog (w : world)
    (before after : list pyval) (item : pyval) (e : exn)
    (models : list CatalogModel.t) :
  (available_models w).1 = Returns (PList (before ++ item :: after)) ->
  models_of_items float_of_str float_of_int before = Built models ->
  getitem item "pricing" = Raises e ->
  (available_models_list float_of_str float_of_int w).1 = Threw (Exn e).
Proof.
  intros Hpayload Hbefore Hitem. unfold available_models_list.
  destruct (available_models w) as [o w']. cbn in Hpayload. subst o.
  cbn [fst py_iter of_outcome built_bind].
  revert models Hbefore. induction before as [|b before IH];
    intros models Hbefore.
  - cbn. unfold model_of_item, built_bind, of_outcome. rewrite Hitem.
    reflexivity.
  - cbn in Hbefore |- *. unfold built_bind in Hbefore |- *.
    destruct (model_of_item _ _ b) as [m|]; [|discriminate].
    destruct (models_of_items _ _ before) as [ms|] eqn:Hms; [|discriminate].
    rewrite (IH ms eq_refl). reflexivity.
Qed.

End CatalogProperties.

Lemma catalog_max_completion_tokens_never_null_witness :
  (Forall2 (fun item m =>
              exists top_provider tokens,
                getitem item "top_provider" = Returns top_provider
                /\ getitem top_provider "max_completion_tokens"
                   = Returns tokens
                /\ CatalogModel.max_completion_tokens m
                   = match tokens with PNone => PInt 0 | _ => tokens end)
           Examples.catalog_items
           (Examples.built_list
              (available_models_list Examples.float_of_str
                 Examples.float_of_int
                 (Examples.world_catalog Examples.catalog_items)).1)
   /\ Forall (fun m => CatalogModel.max_completion_tokens m <> PNone)
             (Examples.built_list
                (available_models_list Examples.float_of_str
                   Examples.float_of_int
                   (Examples.world_catalog Examples.catalog_items)).1))
  /\ map CatalogModel.max_completion_tokens
         (Examples.built_list
            (available_models_list Examples.float_of_str
               Examples.float_of_int
               (Examples.world_catalog Examples.catalog_items)).1)
     = [PInt 0; PInt 1024].
Proof.
  split; [|reflexivity].
  apply (catalog_max_completion_tokens_never_null Examples.float_of_str
           Examples.float_of_int
           (Examples.world_catalog Examples.catalog_items));
    reflexivity.
Defined.

Lemma catalog_has_one_model_per_item_witness :
  Forall2 (fun item m =>
             getitem item "id" = Returns (CatalogModel.id m)
             /\ getitem item "name" = Returns (CatalogModel.name m)
             /\ getitem item "context_length"
                = Returns (CatalogModel.context_length m))
          Examples.catalog_items
          (Examples.built_list
             (available_models_list Examples.float_of_str
                Examples.float_of_int
                (Examples.world_catalog Examples.catalog_items)).1)
  /\ length (Examples.built_list
               (available_models_list Examples.float_of_str
                  Examples.float_of_int
                  (Examples.world_catalog Examples.catalog_items)).1)
     = 2%nat.
Proof.
  split; [|reflexivity].
  apply (catalog_has_one_model_per_item Examples.float_of_str
           Examples.float_of_int
           (Examples.world_catalog Examples.catalog_items));
    reflexivity.
Defined.

Lemma catalog_request_errors_propagate_witness :
  (available_models_list Examples.float_of_str Examples.float_of_int
     Examples.world_catalog_503).1
  = Threw (Exn (HTTPError None
                  (mk_http_response 503 "Service Unavailable" None
                                    0.25%float))).
Proof.
  refine (catalog_request_errors_propagate Examples.float_of_str
            Examples.float_of_int Examples.world_catalog_503 _).
  cbn. lia.
Defined.

Lemma one_bad_item_fails_the_catalog_witness :
  (available_models_list Examples.float_of_str Examples.float_of_int
     (Examples.world_catalog Examples.catalog_items_one_bad)).1
  = Threw (Exn (KeyError (PStr "pricing"))).
Proof.
  apply (one_bad_item_fails_the_catalog Examples.float_of_str
           Examples.float_of_int
           (Examples.world_catalog Examples.catalog_items_one_bad)
           Examples.catalog_items
           [Examples.catalog_item "d" "D" "0.5" PNone]
           (PDict [("id", PStr "c")])
           (KeyError (PStr "pricing"))
           (Examples.built_list
              (models_of_items Examples.float_of_str Examples.float_of_int
                 Examples.catalog_items)));
    reflexivity.
Defined.

(** ** The export *)

Section DictLookup.
Context {K V : Type} (eqb : K -> K -> bool).

(** What is assigned to a key is what the key then gives. *)
Lemma dict_lookup_set (k : K) (v : V) (d : list (K * V)) :
  eqb k k = true ->
  dict_lookup eqb k (dict_set eqb k v d) = Some v.
Proof.
  intros Hk. induction d as [|[k' v'] d IH].
  - cbn. rewrite Hk. reflexivity.
  - cbn [dict_set]. destruct (eqb k' k) eqn:E; cbn; rewrite E;
      [reflexivity|exact IH].
Qed.

End DictLookup.

Lemma dict_set_has_name (k : string) (v : pyval)
    (d : list (string * pyval)) :
  k ∈ dict_keys (dict_set String.eqb k v d).
Proof.
  destruct (dict_set_keys String.eqb k v d) as [[Hk Hex]|[Hs _]].
  - rewrite Hk. apply Exists_exists in Hex as (k' & Hin & Heq).
    apply String.eqb_eq in Heq. subst k'. assumption.
  - rewrite Hs. unfold dict_keys. rewrite map_app. apply elem_of_app.
    right. cbn. apply list_elem_of_singleton. reflexivity.
Qed.

Lemma unequal_names_NoDup (names : list string) :
  unequal_keys String.eqb names -> NoDup names.
Proof.
  unfold unequal_keys. induction 1 as [|a l Ha _ IH]; constructor;
    [|exact IH].
  intros Hin. rewrite Forall_forall in Ha. specialize (Ha a Hin).
  rewrite String.eqb_refl in Ha. discriminate.
Qed.

Lemma export_records_snoc response model r cost_and_stats :
  export_records (response ++ [(model, r)]) cost_and_stats
  = dict_set String.eqb (Model.name model)
             (export_record model r cost_and_stats)
             (export_records response cost_and_stats).
Proof. unfold export_records. rewrite foldl_app. reflexivity. Qed.

(** X26: the export is keyed by the display name: every model that has a
    response has its name among the keys, every key is such a name, and no
    name occurs twice, so models that share a name share one record. *)
Theorem export_is_keyed_by_name
    (response : list (Model.t * LLMResponse.t))
    (cost_and_stats : list (Model.t * LLMCostAndStats.t)) :
  NoDup (dict_keys (export_records response cost_and_stats))
  /\ forall name,
       name ∈ dict_keys (export_records response cost_and_stats)
       <-> name ∈ map (fun item => Model.name item.1) response.
Proof.
  induction response as [|[model r] response IH] using rev_ind.
  - split; [constructor|]. intros name. reflexivity.
  - rewrite export_records_snoc. destruct IH as [Hnodup Hkeys]. split.
    + apply unequal_names_NoDup, dict_set_unequal_keys.
      clear Hkeys. revert Hnodup.
      generalize (dict_keys (export_records response cost_and_stats)).
      intros names. induction 1 as [|a l Ha _ IH]; [constructor|].
      constructor; [|exact IH].
      apply Forall_forall. intros b Hb.
      destruct (String.eqb_spec a b) as [->|_]; [contradiction|reflexivity].
    + intros name. rewrite map_app. cbn. rewrite elem_of_app.
      rewrite list_elem_of_singleton, <- Hkeys. split.
      * intros H. apply dict_set_key_from in H. exact H.
      * intros [H| ->]; [apply dict_set_keeps_keys; exact H|].
        apply dict_set_has_name.
Qed.

Lemma dict_lookup_set_other (k k' : string) (v : pyval)
    (d : list (string * pyval)) :
  k' <> k ->
  dict_lookup String.eqb k (dict_set String.eqb k' v d)
  = dict_lookup String.eqb k d.
Proof.
  intros Hne. induction d as [|[k0 v0] d IH].
  - cbn. destruct (String.eqb_spec k' k); [contradiction|reflexivity].
  - cbn [dict_set]. destruct (String.eqb_spec k0 k') as [->|Hk0].
    + cbn. destruct (String.eqb_spec k' k); [contradiction|reflexivity].
    + cbn. destruct (String.eqb k0 k); [reflexivity|exact IH].
Qed.

Lemma export_records_last before after model r cost_and_stats :
  Forall (fun item : Model.t * LLMResponse.t =>
            Model.name item.1 <> Model.name model) after ->
  dict_lookup String.eqb (Model.name model)
    (export_records (before ++ (model, r) :: after) cost_and_stats)
  = Some (export_record model r cost_and_stats).
Proof.
  induction after as [|[m' r'] after IH] using rev_ind; intros Hafter.
  - rewrite export_records_snoc. apply dict_lookup_set. apply String.eqb_refl.
  - apply Forall_app in Hafter as [Hafter Hlast].
    apply Forall_cons in Hlast as [Hlast _]. cbn in Hlast.
    replace (before ++ (model, r) :: after ++ [(m', r')])%list
      with ((before ++ (model, r) :: after) ++ [(m', r')])%list
      by (rewrite <- app_assoc; reflexivity).
    rewrite export_records_snoc, dict_lookup_set_other by assumption.
    apply IH. assumption.
Qed.

(** X27: of the models that share a name, the one met last fills the record
    under that name: the record holds its response as a dict and, for a
    model without a NaN price, its stats as a dict when it has stats and an
    explicit null when it has none. *)
Theorem last_model_of_a_name_fills_the_record
    (before after : list (Model.t * LLMResponse.t)) (model : Model.t)
    (r : LLMResponse.t)
    (cost_and_stats : list (Model.t * LLMCostAndStats.t)) :
  Forall (fun item => Model.name item.1 <> Model.name model) after ->
  self_equal model ->
  exists record,
    dict_lookup String.eqb (Model.name model)
      (export_records (before ++ (model, r) :: after) cost_and_stats)
    = Some record
    /\ getitem record "response" = Returns (response_to_dict r)
    /\ getitem record "cost_and_stats"
       = Returns match dict_lookup Model.eqb model cost_and_stats with
                 | Some stats => stats_to_dict stats
                 | None => PNone
                 end.
Proof.
  intros Hafter _. exists (export_record model r cost_and_stats).
  split; [apply export_records_last; assumption|].
  split; reflexivity.
Qed.

Lemma last_model_of_a_name_fills_the_record_witness :
  exists record,
    dict_lookup String.eqb "Same"
      (export_records Examples.responses_same_name []) = Some record
    /\ getitem record "response"
       = Returns (response_to_dict (Examples.response "gen-2"))
    /\ getitem record "cost_and_stats" = Returns PNone.
Proof.
  apply (last_model_of_a_name_fills_the_record
           [(Examples.model "x/one" "Same" 0.5%float,
             Examples.response "gen-1")]
           []
           (Examples.model "y/two" "Same" 0.25%float)
           (Examples.response "gen-2") []).
  - constructor.
  - reflexivity.
Defined.

Lemma export_is_keyed_by_name_witness :
  (NoDup (dict_keys (export_records Examples.responses_same_name []))
   /\ forall name,
        name ∈ dict_keys (export_records Examples.responses_same_name [])
        <-> name ∈ map (fun item : Model.t * LLMResponse.t =>
                          Model.name item.1)
                       Examples.responses_same_name)
  /\ dict_keys (export_records Examples.responses_same_name []) = ["Same"].
Proof.
  split; [|reflexivity].
  exact (export_is_keyed_by_name Examples.responses_same_name []).
Defined.

(** ** Models as keys of the mapping *)

Lemma Model_eqb_fields (a b : Model.t) :
  Model.eqb a b = true <->
  Model.id a = Model.id b
  /\ Model.name a = Model.name b
  /\ PrimFloat.eqb (Model.pricing_prompt a) (Model.pricing_prompt b) = true
  /\ PrimFloat.eqb (Model.pricing_completion a) (Model.pricing_completion b)
     = true
  /\ Model.context_length a = Model.context_length b
  /\ Model.max_completion_tokens a = Model.max_completion_tokens b
  /\ Model.tokenizer a = Model.tokenizer b
  /\ Model.instruct_type a = Model.instruct_type b.
Proof.
  unfold Model.eqb.
  rewrite !andb_true_iff, !String.eqb_eq, !Z.eqb_eq. tauto.
Qed.

(** C7, as amended: the mapping that the fan-out returns is keyed by the
    models themselves, compared in all their eight fields and not in the
    identifier alone.  For two models without a NaN price whose calls
    succeed, whatever their identifiers are: if they are equal in every
    field the mapping has one entry, and if they differ in a field, the two
    prices compared as floats, it has the two models as its two keys. *)
Theorem models_are_keyed_by_all_fields (completed : list nat)
    (a b : Model.t) (prompt user_input : string) (temperature : float)
    (max_tokens : Z) (w : world) :
  completed ≡ₚ seq 0 2 ->
  self_equal a -> self_equal b ->
  Forall (fun o => is_Returns o = true)
         (run_all (chat_tasks [a; b] prompt user_input temperature
                     max_tokens) w).1 ->
  exists results,
    (chat_completion_multiple completed [a; b] prompt user_input
       temperature max_tokens w).1 = Returns results
    /\ (Model.eqb a b = true -> Model.eqb b a = true ->
        length results = 1%nat)
    /\ (Model.eqb a b = false -> Model.eqb b a = false ->
        dict_keys results ≡ₚ [a; b])
    /\ (Model.eqb a b = true <->
        Model.id a = Model.id b
        /\ Model.name a = Model.name b
        /\ PrimFloat.eqb (Model.pricing_prompt a) (Model.pricing_prompt b)
           = true
        /\ PrimFloat.eqb (Model.pricing_completion a)
                         (Model.pricing_completion b) = true
        /\ Model.context_length a = Model.context_length b
        /\ Model.max_completion_tokens a = Model.max_completion_tokens b
        /\ Model.tokenizer a = Model.tokenizer b
        /\ Model.instruct_type a = Model.instruct_type b).
Proof.
  intros Hperm _ _ Hok.
  rewrite chat_completion_multiple_run. cbn [fst].
  pose proof (chat_tasks_length [a; b] prompt user_input temperature
                max_tokens w) as Hlen.
  destruct (run_all _ w) as [outcomes w']. cbn [fst] in *.
  destruct outcomes as [|o1 [|o2 [|? ?]]]; try discriminate.
  apply Forall_cons in Hok as [H1 Hok]. apply Forall_cons in Hok as [H2 _].
  destruct o1 as [r1|]; [|discriminate].
  destruct o2 as [r2|]; [|discriminate].
  cbn in Hperm. symmetry in Hperm.
  apply Permutation_length_2_inv in Hperm as [-> | ->].
  - exists (if Model.eqb a b then [(a, r2)] else [(a, r1); (b, r2)]).
    split; [cbn; destruct (Model.eqb a b); reflexivity|].
    split; [intros Hab _; rewrite Hab; reflexivity|].
    split; [intros Hab _; rewrite Hab; reflexivity|].
    apply Model_eqb_fields.
  - exists (if Model.eqb b a then [(b, r1)] else [(b, r2); (a, r1)]).
    split; [cbn; destruct (Model.eqb b a); reflexivity|].
    split; [intros _ Hba; rewrite Hba; reflexivity|].
    split; [intros _ Hba; rewrite Hba; apply perm_swap|].
    apply Model_eqb_fields.
Qed.

Lemma models_are_keyed_by_all_fields_witness :
  exists results,
    (chat_completion_multiple [1; 0]%nat
       [Examples.model "a" "A" 0.5%float; Examples.model "a" "A" 0.25%float]
       Examples.system_prompt Examples.question 0%float 2048
       Examples.world_ok).1 = Returns results
    /\ (Model.eqb (Examples.model "a" "A" 0.5%float)
                  (Examples.model "a" "A" 0.25%float) = true ->
        Model.eqb (Examples.model "a" "A" 0.25%float)
                  (Examples.model "a" "A" 0.5%float) = true ->
        length results = 1%nat)
    /\ (Model.eqb (Examples.model "a" "A" 0.5%float)
                  (Examples.model "a" "A" 0.25%float) = false ->
        Model.eqb (Examples.model "a" "A" 0.25%float)
                  (Examples.model "a" "A" 0.5%float) = false ->
        dict_keys results
        ≡ₚ [Examples.model "a" "A" 0.5%float;
            Examples.model "a" "A" 0.25%float])
    /\ (Model.eqb (Examples.model "a" "A" 0.5%float)
                  (Examples.model "a" "A" 0.25%float) = true <->
        Model.id (Examples.model "a" "A" 0.5%float)
        = Model.id (Examples.model "a" "A" 0.25%float)
        /\ Model.name (Examples.model "a" "A" 0.5%float)
           = Model.name (Examples.model "a" "A" 0.25%float)
        /\ PrimFloat.eqb
             (Model.pricing_prompt (Examples.model "a" "A" 0.5%float))
             (Model.pricing_prompt (Examples.model "a" "A" 0.25%float))
           = true
        /\ PrimFloat.eqb
             (Model.pricing_completion (Examples.model "a" "A" 0.5%float))
             (Model.pricing_completion (Examples.model "a" "A" 0.25%float))
           = true
        /\ Model.context_length (Examples.model "a" "A" 0.5%float)
           = Model.context_length (Examples.model "a" "A" 0.25%float)
        /\ Model.max_completion_tokens (Examples.model "a" "A" 0.5%float)
           = Model.max_completion_tokens (Examples.model "a" "A" 0.25%float)
        /\ Model.tokenizer (Examples.model "a" "A" 0.5%float)
           = Model.tokenizer (Examples.model "a" "A" 0.25%float)
        /\ Model.instruct_type (Examples.model "a" "A" 0.5%float)
           = Model.instruct_type (Examples.model "a" "A" 0.25%float)).
Proof.
  apply (models_are_keyed_by_all_fields [1; 0]%nat
           (Examples.model "a" "A" 0.5%float)
           (Examples.model "a" "A" 0.25%float)
           Examples.system_prompt Examples.question 0%float 2048
           Examples.world_ok).
  - cbn. apply perm_swap.
  - reflexivity.
  - reflexivity.
  - cbn. repeat constructor.
Defined.
